(** * fastapi-users-api: the authentication gateway of [app/main.py]

    A shallow embedding of the gateway's request handlers
    ([get_current_user], [get_current_active_user],
    [login_for_access_token], [read_user_route], [read_admin_route]), of
    the settings of [app/core/config.py] and of the seed data of
    [app/db/init_db.py], together with the properties the specification
    states about them.

    Python exceptions are threaded through an error monad [Result]; the
    collaborators that [main.py] imports ([app.core.security], the
    password hasher, the [httpx] client) are interfaces, so every theorem
    about a handler holds for each implementation of them. *)

From Stdlib Require Import ZArith Lia.
From Stdlib Require Import Strings.Byte Numbers.DecimalString Numbers.DecimalZ.
From stdpp Require Import base option list strings pretty gmap finite.

Local Open Scope string_scope.
Local Open Scope Z_scope.

(** ** Python values, exceptions and the error monad *)

(** The values found in token claims and in flat JSON objects. Floats and
    nested containers are not modelled. *)
Inductive value :=
  | VNone
  | VBool (b : bool)
  | VInt (n : Z)
  | VStr (s : string).

Global Instance value_eq_dec : EqDecision value.
Proof. solve_decision. Defined.

(** [bool(v)]: what [if not v] tests. *)
Definition truthy (v : value) : bool :=
  match v with
  | VNone => false
  | VBool b => b
  | VInt n => negb (n =? 0)
  | VStr s => negb (String.eqb s EmptyString)
  end.

(** [str(v)], as an f-string interpolates it. *)
Definition format (v : value) : string :=
  match v with
  | VNone => "None"
  | VBool true => "True"
  | VBool false => "False"
  | VInt n => pretty n
  | VStr s => s
  end.

(** A [dict] with string keys; [dict_get d k] is [d.get(k)]. *)
Abbreviation dict := (gmap string value).

Definition dict_get (d : dict) (k : string) : value :=
  default VNone (d !! k).

(** What [response.json()] can return. *)
Inductive Json :=
  | JScalar (v : value)
  | JArray (items : list value)
  | JObject (fields : dict).

(** The exceptions the handlers raise or catch: FastAPI's [HTTPException],
    jose's [JWTError], and [Error] for every other subclass of
    [Exception], carrying its [str()]. *)
Inductive exn :=
  | HTTPException (status_code : Z) (detail : string)
                  (headers : list (string * string))
  | JWTError (msg : string)
  | Error (msg : string).

(** [str(e)]; Starlette prints an [HTTPException] as its status code and
    its detail. *)
Definition str (e : exn) : string :=
  match e with
  | HTTPException code detail _ => pretty code +:+ ": " +:+ detail
  | JWTError msg => msg
  | Error msg => msg
  end.

Inductive Result (A : Type) :=
  | Ok (a : A)
  | Raise (e : exn).
Arguments Ok {A} a.
Arguments Raise {A} e.

Global Instance Result_ret : MRet Result := λ A a, Ok a.
Global Instance Result_bind : MBind Result := λ A B f m,
  match m with Ok a => f a | Raise e => Raise e end.

(** [try: body  except Exception as e: handler e]. Every exception of the
    model is an [Exception], [HTTPException] included. *)
Definition try_except {A} (body : Result A) (handler : exn → Result A)
    : Result A :=
  match body with Ok a => Ok a | Raise e => handler e end.

(** The status line FastAPI answers with: 200 for a returned value, the
    status code of a raised [HTTPException], 500 for any other exception
    that leaves the handler. *)
Definition status {A} (r : Result A) : Z :=
  match r with
  | Ok _ => 200
  | Raise (HTTPException code _ _) => code
  | Raise _ => 500
  end.

(** [obj[key]] on the result of [response.json()]. *)
Definition getitem (obj : Json) (key : string) : Result value :=
  match obj with
  | JObject fields =>
      match fields !! key with
      | Some v => Ok v
      | None => Raise (Error ("'" +:+ key +:+ "'"))
      end
  | JArray _ => Raise (Error "list indices must be integers or slices, not str")
  | JScalar VNone => Raise (Error "'NoneType' object is not subscriptable")
  | JScalar (VBool _) => Raise (Error "'bool' object is not subscriptable")
  | JScalar (VInt _) => Raise (Error "'int' object is not subscriptable")
  | JScalar (VStr _) =>
      Raise (Error "string indices must be integers, not 'str'")
  end.

(** ** app/core/config.py *)

Module Settings.
Record t := {
  PROJECT_NAME : string;
  VERSION : string;
  API_V1_STR : string;
  DEBUG : bool;
  DATABASE_URL : string;
  SECRET_KEY : string;
  ACCESS_TOKEN_EXPIRE_MINUTES : Z;
  FAKE_API_BASE_URL : string;
}.
End Settings.





(** ** The Credential Store *)

Module User.
Record t := {
  username : string;
  hashed_password : string;
  role : string;
  is_active : bool;
}.
End User.

Global Instance User_eq_dec : EqDecision User.t.
Proof. solve_decision. Defined.

(** The table of users, in query order. *)
Abbreviation DB := (list User.t).

(** The password hasher behind [app.crud.user]. *)
Class Hasher := {
  get_password_hash : string → string;
  verify_password : string → string → bool;
}.

(** Modelled from the spec: [app/crud/user.py] is not among the sources.
    [get_user] is the Credential Store's [lookup(username)]: the record
    stored under this username, if any. *)
Definition get_user (db : DB) (username : string) : option User.t :=
  List.find (λ u, bool_decide (User.username u = username)) db.

(** Modelled from the spec: [app/crud/user.py] is not among the sources.
    [authenticate_user] is the Credential Store's [verify_login]: it
    "looks up by username, compares password against stored hash [...],
    returns the record only if match and active". *)
Definition authenticate_user {hasher : Hasher} (db : DB) (username password : string)
    : option User.t :=
  match get_user db username with
  | None => None
  | Some user =>
      if verify_password password (User.hashed_password user)
         && User.is_active user
      then Some user
      else None
  end.

(** Modelled from the spec: [app/crud/user.py] is not among the sources.
    [create_user] provisions a record with the hash of the password; a new
    user is active. *)
Definition create_user {hasher : Hasher} (db : DB) (username password role : string)
    : DB * User.t :=
  let user := {| User.username := username;
                 User.hashed_password := get_password_hash password;
                 User.role := role;
                 User.is_active := true |} in
  ((db ++ [user])%list, user).

(** ** app/db/init_db.py *)

Definition INITIAL_USERS : list (string * string * string) :=
  [ ("user", "L0XuwPOdS5U", "user");
    ("admin", "JKSipm0YH", "admin") ].

Definition init_db {hasher : Hasher} (db : DB) : DB :=
  match head db with
  | Some _ => db
  | None =>
      foldl (λ db '(username, password, role),
               (create_user db username password role).1)
            db INITIAL_USERS
  end.

(** ** The collaborators of app/main.py *)

(** [app.core.security]: the Token Codec as [main.py] calls it. [Tok] is
    the type of session tokens, which the handlers only pass around.
    [create_access_token data expires_delta] takes the claims and the
    lifetime in seconds; [decode_access_token] returns the claims or
    raises. *)
Class Security (Tok : Type) := {
  create_access_token : dict → Z → Result Tok;
  decode_access_token : Tok → Result dict;
}.

Inductive Method := GET | POST.

Record Request := {
  method : Method;
  url : string;
  params : list (string * string);
  headers : list (string * string);
}.

Module Response.
Record t := {
  status_code : Z;
  text : string;
  json : Result Json;
}.
End Response.

(** [httpx.AsyncClient]: [send] performs one request against the upstream
    API and returns its response, whatever its status, or raises when the
    transport fails (connection refused, timeout, ...). *)
Class Httpx := {
  send : Request → Result Response.t;
}.

(** The module-level [settings = Settings()]. *)
Class Config := settings : Settings.t.

(** [timedelta(minutes=m)], in seconds. A [timedelta] spans at most
    999999999 days in either direction; beyond that the constructor
    raises an [OverflowError]. *)
Definition timedelta_minutes (m : Z) : Result Z :=
  let days := (60 * m) `div` 86400 in
  if bool_decide (Z.abs days ≤ 999999999)
  then Ok (60 * m)
  else if bool_decide (Z.abs days < 2 ^ 31)
  then Raise (Error ("days=" +:+ pretty days
                     +:+ "; must have magnitude <= 999999999"))
  else Raise (Error "Python int too large to convert to C int").

(** ** app/main.py *)

Module LoginData.
Record t := {
  username : string;
  password : string;
}.
End LoginData.

Module TokenData.
Record t := {
  username : string;
  role : string;
}.
End TokenData.

(** Modelled from the spec: [app/schemas/token.py] is not among the
    sources. The subject and the role of the spec's Claims are strings, so
    [TokenData] is the pydantic model with two [str] fields: building it
    from anything else raises a validation error. *)
Definition TokenData_new (username role : value) : Result TokenData.t :=
  match username, role with
  | VStr u, VStr r => Ok {| TokenData.username := u; TokenData.role := r |}
  | _, _ => Raise (Error "validation error for TokenData")
  end.

(** The body of a successful [POST /token] (the response schema [Token]). *)
Module Token.
Record t (Tok : Type) := {
  access_token : Tok;
  token_type : string;
  role : string;
}.
Arguments access_token {Tok} _.
Arguments token_type {Tok} _.
Arguments role {Tok} _.
End Token.

(** What [HTTPBearer] extracts from the [Authorization] header. *)
Module HTTPAuthorizationCredentials.
Record t (Tok : Type) := {
  scheme : string;
  credentials : Tok;
}.
Arguments scheme {Tok} _.
Arguments credentials {Tok} _.
End HTTPAuthorizationCredentials.

Definition credentials_exception : exn :=
  HTTPException 401 "Could not validate credentials"
                [("WWW-Authenticate", "Bearer")].

Section main.
Context {Tok : Type} {security : Security Tok} {hasher : Hasher}
        {httpx : Httpx} {config : Config}.

Definition get_current_user (credentials : HTTPAuthorizationCredentials.t Tok)
    (db : DB) : Result User.t :=
  token_data ←
    try_except
      (let token := HTTPAuthorizationCredentials.credentials credentials in
       payload ← decode_access_token token;
       let username := dict_get payload "sub" in
       let role := dict_get payload "role" in
       if bool_decide (username = VNone ∨ role = VNone)
       then Raise credentials_exception
       else TokenData_new username role)
      (λ e, match e with
            | JWTError _ => Raise credentials_exception
            | _ => Raise credentials_exception
            end);
  let user := get_user db (TokenData.username token_data) in
  match user with
  | None => Raise credentials_exception
  | Some user =>
      if bool_decide (User.role user ≠ TokenData.role token_data)
      then Raise credentials_exception
      else Ok user
  end.

Definition get_current_active_user (current_user : User.t)
    : Result User.t :=
  if negb (User.is_active current_user)
  then Raise (HTTPException 400 "Inactive user" [])
  else Ok current_user.

Definition login_for_access_token (login_data : LoginData.t) (db : DB)
    : Result (Token.t Tok) :=
  let user := authenticate_user db (LoginData.username login_data)
                                (LoginData.password login_data) in
  match user with
  | None =>
      Raise (HTTPException 401 "Incorrect username or password"
                           [("WWW-Authenticate", "Bearer")])
  | Some user =>
      try_except
        (let params := [("username", LoginData.username login_data);
                        ("password", LoginData.password login_data)] in
         response ← send {| method := POST;
                            url := Settings.FAKE_API_BASE_URL settings
                                   +:+ "/token";
                            params := params;
                            headers := [] |};
         if bool_decide (Response.status_code response ≠ 200)
         then Raise (HTTPException (Response.status_code response)
                       (pretty (Response.status_code response) +:+ ": "
                        +:+ Response.text response) [])
         else
           body ← Response.json response;
           external_token ← getitem body "access_token";
           access_token_expires ←
             timedelta_minutes
               (Settings.ACCESS_TOKEN_EXPIRE_MINUTES settings);
           access_token ←
             create_access_token
               {[ "sub" := VStr (User.username user);
                  "role" := VStr (User.role user);
                  "ext_token" := external_token ]}
               access_token_expires;
           Ok {| Token.access_token := access_token;
                 Token.token_type := "bearer";
                 Token.role := User.role user |})
        (λ e, Raise (HTTPException 500 (str e) []))
  end.

Definition read_user_route (current_user : User.t)
    (credentials : HTTPAuthorizationCredentials.t Tok) : Result Json :=
  if bool_decide (User.role current_user ∉ ["user"; "admin"])
  then Raise (HTTPException 403 "Not enough permissions" [])
  else
    try_except
      (payload ← decode_access_token
                   (HTTPAuthorizationCredentials.credentials credentials);
       let external_token := dict_get payload "ext_token" in
       if negb (truthy external_token)
       then Raise (HTTPException 401 "External token not found" [])
       else
         let headers :=
           [("Authorization", "Bearer " +:+ format external_token)] in
         response ← send {| method := GET;
                            url := Settings.FAKE_API_BASE_URL settings
                                   +:+ "/user";
                            params := [];
                            headers := headers |};
         Response.json response)
      (λ e, Raise (HTTPException 500 (str e) [])).

Definition read_admin_route (current_user : User.t)
    (credentials : HTTPAuthorizationCredentials.t Tok) : Result Json :=
  if bool_decide (User.role current_user ≠ "admin")
  then Raise (HTTPException 403 "Not enough permissions" [])
  else
    try_except
      (payload ← decode_access_token
                   (HTTPAuthorizationCredentials.credentials credentials);
       let external_token := dict_get payload "ext_token" in
       if negb (truthy external_token)
       then Raise (HTTPException 401 "External token not found" [])
       else
         let headers :=
           [("Authorization", "Bearer " +:+ format external_token)] in
         response ← send {| method := GET;
                            url := Settings.FAKE_API_BASE_URL settings
                                   +:+ "/admin";
                            params := [];
                            headers := headers |};
         Response.json response)
      (λ e, Raise (HTTPException 500 (str e) [])).

Definition health_check : Result Json :=
  try_except
    (response ← send {| method := GET;
                        url := Settings.FAKE_API_BASE_URL settings
                               +:+ "/health";
                        params := [];
                        headers := [] |};
     Response.json response)
    (λ e, Raise (HTTPException 500 (str e) [])).

(** *** The endpoints: FastAPI resolves the [Depends] chain, then calls
    the route; an exception raised by a dependency ends the request. *)

Definition POST_token (login_data : LoginData.t) (db : DB)
    : Result (Token.t Tok) :=
  login_for_access_token login_data db.

Definition GET_user (credentials : HTTPAuthorizationCredentials.t Tok)
    (db : DB) : Result Json :=
  current_user ← get_current_user credentials db
                 ≫= get_current_active_user;
  read_user_route current_user credentials.

Definition GET_admin (credentials : HTTPAuthorizationCredentials.t Tok)
    (db : DB) : Result Json :=
  current_user ← get_current_user credentials db
                 ≫= get_current_active_user;
  read_admin_route current_user credentials.
End main.

(** ** The Token Codec *)

Module Claims.
Record t := {
  subject : string;
  role : string;
  upstream_credential : string;
  issued_at : Z;
  expires_at : Z;
}.
End Claims.

Global Instance Claims_eq_dec : EqDecision Claims.t.
Proof. solve_decision. Defined.

(** A session token on the wire: the serialized claims and the signature
    over them. How the two segments are joined into one string is not
    modelled. *)
Record SessionToken := {
  payload_segment : list byte;
  signature_segment : list byte;
}.

Global Instance byte_eq_dec : EqDecision byte := Byte.byte_eq_dec.

Inductive DecodeError := Malformed | BadSignature | Expired.

Inductive Decoded :=
  | Valid (claims : Claims.t)
  | Invalid (e : DecodeError).

(** The symmetric signing algorithm: the tag of a message under a secret. *)
Class Signer := sign : string → list byte → list byte.

(** The serialization of the claims. *)
Class WireFormat := {
  serialize : Claims.t → list byte;
  deserialize : list byte → option Claims.t;
}.

(** Parsing undoes printing. *)
Class WireLaw {wire_format : WireFormat} : Prop :=
  deserialize_serialize : ∀ claims, deserialize (serialize claims) = Some claims.

Section codec.
Context {signer : Signer} {wire_format : WireFormat}.

(** The claims as issued at [now] for [ttl] seconds. *)
Definition stamp (now ttl : Z) (claims : Claims.t) : Claims.t :=
  {| Claims.subject := Claims.subject claims;
     Claims.role := Claims.role claims;
     Claims.upstream_credential := Claims.upstream_credential claims;
     Claims.issued_at := now;
     Claims.expires_at := now + ttl |}.

(** Modelled from the spec: [app/core/security.py] is not among the
    sources. [encode] "serializes claims plus issued_at = now,
    expires_at = now + ttl, signs with a server-held secret using a
    symmetric signing algorithm, returns the token"; the secret and the
    clock are explicit. *)
Definition encode (secret : string) (now : Z) (claims : Claims.t) (ttl : Z)
    : SessionToken :=
  let body := serialize (stamp now ttl claims) in
  {| payload_segment := body; signature_segment := sign secret body |}.

(** Modelled from the spec: [app/core/security.py] is not among the
    sources. [decode] "verifies signature, checks expiry, deserializes
    claims. Fails with BadSignature if signature verification fails,
    Expired if now >= expires_at, Malformed if the structure cannot be
    parsed". A symmetric signature is verified by signing again. *)
Definition decode (secret : string) (now : Z) (token : SessionToken)
    : Decoded :=
  if bool_decide
       (signature_segment token = sign secret (payload_segment token))
  then
    match deserialize (payload_segment token) with
    | None => Invalid Malformed
    | Some claims =>
        if bool_decide (Claims.expires_at claims ≤ now)
        then Invalid Expired
        else Valid claims
    end
  else Invalid BadSignature.
End codec.

(** ** Reference instances

    One implementation of each interface, small enough to run the model on
    concrete requests. *)

Module Reference.

(** *** A wire format: byte-stuffed fields *)

(** Every byte of a field follows a [x01] marker; [x00] ends the field. *)
Fixpoint frame (field : list byte) : list byte :=
  match field with
  | [] => [Byte.x00]
  | b :: field => Byte.x01 :: b :: frame field
  end.

Fixpoint unframe (input : list byte) : option (list byte * list byte) :=
  match input with
  | Byte.x00 :: rest => Some ([], rest)
  | Byte.x01 :: b :: input =>
      match unframe input with
      | Some (field, rest) => Some (b :: field, rest)
      | None => None
      end
  | _ => None
  end.

(** Timestamps travel in decimal. *)
Definition bytes_of_Z (z : Z) : list byte :=
  String.list_byte_of_string (NilZero.string_of_int (Z.to_int z)).

Definition Z_of_bytes (bytes : list byte) : option Z :=
  Z.of_int <$> NilZero.int_of_string (String.string_of_list_byte bytes).

Definition serialize_claims (claims : Claims.t) : list byte :=
  (frame (String.list_byte_of_string (Claims.subject claims))
   ++ frame (String.list_byte_of_string (Claims.role claims))
   ++ frame (String.list_byte_of_string (Claims.upstream_credential claims))
   ++ frame (bytes_of_Z (Claims.issued_at claims))
   ++ frame (bytes_of_Z (Claims.expires_at claims)))%list.

Definition deserialize_claims (input : list byte) : option Claims.t :=
  '(subject, input) ← unframe input;
  '(role, input) ← unframe input;
  '(upstream_credential, input) ← unframe input;
  '(issued_at, input) ← unframe input;
  '(expires_at, input) ← unframe input;
  issued_at ← Z_of_bytes issued_at;
  expires_at ← Z_of_bytes expires_at;
  match input with
  | [] =>
      Some {| Claims.subject := String.string_of_list_byte subject;
              Claims.role := String.string_of_list_byte role;
              Claims.upstream_credential :=
                String.string_of_list_byte upstream_credential;
              Claims.issued_at := issued_at;
              Claims.expires_at := expires_at |}
  | _ => None
  end.

#[export] Instance wire : WireFormat :=
  {| serialize := serialize_claims; deserialize := deserialize_claims |}.

(** *** A signer: the tag is the secret followed by the message. It
    tells secrets apart and has none of the security of a MAC. *)
#[export] Instance keyed_tag : Signer :=
  λ secret message, (String.list_byte_of_string secret ++ message)%list.

(** *** A password hasher *)
#[export] Instance hasher : Hasher :=
  {| get_password_hash := λ password, "hash:" +:+ password;
     verify_password := λ password hashed,
       String.eqb hashed ("hash:" +:+ password) |}.

(** *** Unsigned tokens: a token is its claims, [None] is garbage. *)
#[export] Instance plain_tokens : Security (option dict) :=
  {| create_access_token := λ data _, Ok (Some data);
     decode_access_token := λ token,
       match token with
       | Some payload => Ok payload
       | None => Raise (JWTError "Not enough segments")
       end |}.

#[export] Instance config : Config :=
  {| Settings.PROJECT_NAME := "FastAPI Users API";
     Settings.VERSION := "1.0.0";
     Settings.API_V1_STR := "/api/v1";
     Settings.DEBUG := false;
     Settings.DATABASE_URL := "sqlite:///./sql_app.db";
     Settings.SECRET_KEY := "secret";
     Settings.ACCESS_TOKEN_EXPIRE_MINUTES := 30;
     Settings.FAKE_API_BASE_URL :=
       "https://api-onecloud.multicloud.tivit.com/fake" |}.

(** *** Three upstreams *)

(** One that answers every request with 200 and a token. *)
Definition upstream_up : Httpx :=
  {| send := λ _,
       Ok {| Response.status_code := 200;
             Response.text := "{access_token: ext}";
             Response.json :=
               Ok (JObject {[ "access_token" := VStr "ext" ]}) |} |}.

(** One that answers every request with 503 and a JSON body. *)
Definition upstream_unavailable : Httpx :=
  {| send := λ _,
       Ok {| Response.status_code := 503;
             Response.text := "{detail: unavailable}";
             Response.json :=
               Ok (JObject {[ "detail" := VStr "unavailable" ]}) |} |}.

(** One that cannot be reached. *)
Definition upstream_down : Httpx :=
  {| send := λ _, Raise (Error "All connection attempts failed") |}.

(** The store as [init_db] seeds it, and the same store with the
    account [user] deactivated. *)
Definition db : DB := init_db [].

Definition deactivate (user : User.t) : User.t :=
  {| User.username := User.username user;
     User.hashed_password := User.hashed_password user;
     User.role := User.role user;
     User.is_active := false |}.

Definition db_user_deactivated : DB :=
  (λ user, if bool_decide (User.username user = "user")
           then deactivate user else user) <$> db.

(** A token for [username] with role [role], with and without the
    upstream credential. *)
Definition token_for (username role : string) : option dict :=
  Some {[ "sub" := VStr username; "role" := VStr role;
          "ext_token" := VStr "ext" ]}.

Definition token_without_ext (username role : string) : option dict :=
  Some {[ "sub" := VStr username; "role" := VStr role ]}.

Definition bearer {Tok} (token : Tok) : HTTPAuthorizationCredentials.t Tok :=
  {| HTTPAuthorizationCredentials.scheme := "Bearer";
     HTTPAuthorizationCredentials.credentials := token |}.

(** The record that [init_db] stores for the account [user], its login,
    and the claims of its session. *)
Definition user_record : User.t :=
  {| User.username := "user";
     User.hashed_password := "hash:L0XuwPOdS5U";
     User.role := "user";
     User.is_active := true |}.

Definition user_login : LoginData.t :=
  {| LoginData.username := "user"; LoginData.password := "L0XuwPOdS5U" |}.

Definition user_claims : Claims.t :=
  {| Claims.subject := "user";
     Claims.role := "user";
     Claims.upstream_credential := "ext";
     Claims.issued_at := 0;
     Claims.expires_at := 0 |}.

End Reference.

(** ** The requests of app/main.py, and more fixtures *)

Section requests.
Context {config : Config}.

(** The request of [login_for_access_token]: the credentials travel as
    query parameters. *)
Definition token_request (login_data : LoginData.t) : Request :=
  {| method := POST;
     url := Settings.FAKE_API_BASE_URL settings +:+ "/token";
     params := [("username", LoginData.username login_data);
                ("password", LoginData.password login_data)];
     headers := [] |}.

(** The request of [read_user_route] and [read_admin_route]. *)
Definition proxy_request (path : string) (external_token : value) : Request :=
  {| method := GET;
     url := Settings.FAKE_API_BASE_URL settings +:+ path;
     params := [];
     headers := [("Authorization", "Bearer " +:+ format external_token)] |}.

(** The request of [health_check]. *)
Definition health_request : Request :=
  {| method := GET;
     url := Settings.FAKE_API_BASE_URL settings +:+ "/health";
     params := [];
     headers := [] |}.
End requests.

(** What a proxying route makes of the upstream's answer: the JSON body,
    or a 500 with the text of the exception. *)
Definition relayed (answer : Result Response.t) : Result Json :=
  match answer with
  | Raise e => Raise (HTTPException 500 (str e) [])
  | Ok response =>
      match Response.json response with
      | Ok body => Ok body
      | Raise e => Raise (HTTPException 500 (str e) [])
      end
  end.

(** A token is fresh, at the time of a request, when it decodes to a
    payload that has every claim it was created with: it has not expired
    and is the token that was issued. The codec may add claims of its own,
    such as the expiry. This is said of one token at one instant, not of
    the codec. *)
Definition fresh {Tok : Type} {security : Security Tok} (token : Tok) : Prop :=
  ∀ data lifetime,
    create_access_token data lifetime = Ok token →
    ∃ payload, decode_access_token token = Ok payload ∧ data ⊆ payload.

(** What [read_user_route] and [read_admin_route] do once the role is
    permitted, with the upstream path as a parameter. *)
Definition proxied {Tok : Type} {security : Security Tok} {httpx : Httpx}
    {config : Config} (credentials : HTTPAuthorizationCredentials.t Tok)
    (path : string) : Result Json :=
  match decode_access_token
          (HTTPAuthorizationCredentials.credentials credentials) with
  | Raise e => Raise (HTTPException 500 (str e) [])
  | Ok payload =>
      if truthy (dict_get payload "ext_token")
      then relayed (send (proxy_request path (dict_get payload "ext_token")))
      else Raise (HTTPException 500 "401: External token not found" [])
  end.

Module Fixtures.

(** An upstream whose 200 carries no token. *)
Definition upstream_without_token : Httpx :=
  {| send := λ _,
       Ok {| Response.status_code := 200;
             Response.text := "{detail: ok}";
             Response.json := Ok (JObject {[ "detail" := VStr "ok" ]}) |} |}.

(** A token whose upstream credential is the empty string. *)
Definition token_with_empty_ext (username role : string) : option dict :=
  Some {[ "sub" := VStr username; "role" := VStr role;
          "ext_token" := VStr EmptyString ]}.

(** The payload that a signed token decodes to. *)
Definition payload_of (claims : Claims.t) : dict :=
  {[ "sub" := VStr (Claims.subject claims);
     "role" := VStr (Claims.role claims);
     "ext_token" := VStr (Claims.upstream_credential claims);
     "iat" := VInt (Claims.issued_at claims);
     "exp" := VInt (Claims.expires_at claims) ]}.

(** Signed tokens that expire: the codec of the spec, with the reference
    signer and wire format, behind the interface of [app.core.security].
    Tokens are created at the time [issued] and decoded at the time [now];
    only a subject, a role and an upstream credential that are strings
    can be signed. *)
Definition signed_tokens (secret : string) (issued now : Z)
    : Security SessionToken :=
  {| create_access_token := λ data lifetime,
       match data !! "sub", data !! "role", data !! "ext_token" with
       | Some (VStr subject), Some (VStr role), Some (VStr credential) =>
           if bool_decide (data = {[ "sub" := VStr subject;
                                     "role" := VStr role;
                                     "ext_token" := VStr credential ]})
           then Ok (@encode Reference.keyed_tag Reference.wire secret issued
                      {| Claims.subject := subject;
                         Claims.role := role;
                         Claims.upstream_credential := credential;
                         Claims.issued_at := issued;
                         Claims.expires_at := issued + lifetime |}
                      lifetime)
           else Raise (Error "claims are not serializable")
       | _, _, _ => Raise (Error "claims are not serializable")
       end;
     decode_access_token := λ token,
       match @decode Reference.keyed_tag Reference.wire secret now token with
       | Valid claims => Ok (payload_of claims)
       | Invalid Expired => Raise (JWTError "Signature has expired.")
       | Invalid BadSignature =>
           Raise (JWTError "Signature verification failed.")
       | Invalid Malformed => Raise (JWTError "Not enough segments")
       end |}.


(** The codec of a gateway that issued at 1000 and is asked at 1030, and
    the body it answers the login of [user] with: a token for half an
    hour. *)
Definition gateway_tokens : Security SessionToken :=
  signed_tokens "secret" 1000 1030.

Definition user_session : Token.t SessionToken :=
  {| Token.access_token :=
       @encode Reference.keyed_tag Reference.wire "secret" 1000
         {| Claims.subject := "user";
            Claims.role := "user";
            Claims.upstream_credential := "ext";
            Claims.issued_at := 1000;
            Claims.expires_at := 2800 |}
         1800;
     Token.token_type := "bearer";
     Token.role := "user" |}.



End Fixtures.

(** ** Signatures of bounded length *)



(** * Properties *)

(** ** The error monad *)

(** A block whose handler answers 500 returns a value or answers 500. *)
Lemma try_except_500 {A} (body : Result A) :
  let r := try_except body (λ e, Raise (HTTPException 500 (str e) [])) in
  status r = 200 ∨ status r = 500.
Proof. destruct body; simpl; auto. Qed.

(** ** The Authorization Gate *)

Section gate.
Context {Tok : Type} {security : Security Tok} {hasher : Hasher}
        {httpx : Httpx} {config : Config}.
Implicit Types (credentials : HTTPAuthorizationCredentials.t Tok)
               (db : DB) (user : User.t) (payload : dict).

(** [get_current_user] has one way to fail. *)
Lemma get_current_user_cases credentials db :
  (∃ user, get_current_user credentials db = Ok user)
  ∨ get_current_user credentials db = Raise credentials_exception.
Proof.
  unfold get_current_user.
  destruct (decode_access_token _) as [payload|e]; simpl.
  - case_bool_decide; simpl; [by right|].
    destruct (TokenData_new _ _) as [token_data|e]; simpl;
      [|right; by destruct e].
    destruct (get_user _ _) as [user|]; [|by right].
    case_bool_decide; [by right|]. left. by exists user.
  - right. by destruct e.
Qed.

(** What an accepted token says about the store. *)
Lemma get_current_user_Ok credentials db user :
  get_current_user credentials db = Ok user ↔
  ∃ payload username,
    decode_access_token (HTTPAuthorizationCredentials.credentials credentials)
      = Ok payload
    ∧ dict_get payload "sub" = VStr username
    ∧ dict_get payload "role" = VStr (User.role user)
    ∧ get_user db username = Some user.
Proof.
  unfold get_current_user. split.
  - destruct (decode_access_token _) as [payload|e]; simpl;
      [|by destruct e].
    case_bool_decide; simpl; [done|].
    destruct (dict_get payload "sub") as [| |n|username] eqn:Hsub;
      try done; simpl;
      destruct (dict_get payload "role") as [| |m|role] eqn:Hrole;
      try done; simpl.
    destruct (get_user db username) as [user'|] eqn:Hget; [|done].
    case_bool_decide as Hne; [done|]. intros [= ->].
    subst role. by exists payload, username.
  - intros (payload & username & -> & Hsub & Hrole & Hget). simpl.
    rewrite Hsub, Hrole.
    rewrite bool_decide_false by (intros [?|?]; discriminate).
    simpl. rewrite Hget. rewrite bool_decide_false; [done|].
    by intros [].
Qed.

Lemma get_current_user_Raise credentials db e :
  get_current_user credentials db = Raise e → e = credentials_exception.
Proof.
  destruct (get_current_user_cases credentials db) as [[user ->]| ->];
    congruence.
Qed.

(** The failures of [get_current_user], one by one. *)
Lemma decode_failure_rejected credentials db e :
  decode_access_token (HTTPAuthorizationCredentials.credentials credentials)
    = Raise e →
  get_current_user credentials db = Raise credentials_exception.
Proof.
  intros Hdec.
  destruct (get_current_user_cases credentials db) as [[user Hok]|]; [|done].
  apply get_current_user_Ok in Hok as (? & ? & Hdec' & _). congruence.
Qed.

Lemma missing_claim_rejected credentials db payload :
  decode_access_token (HTTPAuthorizationCredentials.credentials credentials)
    = Ok payload →
  dict_get payload "sub" = VNone ∨ dict_get payload "role" = VNone →
  get_current_user credentials db = Raise credentials_exception.
Proof.
  intros Hdec Hmissing.
  destruct (get_current_user_cases credentials db) as [[user Hok]|]; [|done].
  apply get_current_user_Ok in Hok as (? & ? & Hdec' & Hsub & Hrole & _).
  rewrite Hdec in Hdec'. injection Hdec' as <-.
  destruct Hmissing; congruence.
Qed.

Lemma unknown_user_rejected credentials db payload username :
  decode_access_token (HTTPAuthorizationCredentials.credentials credentials)
    = Ok payload →
  dict_get payload "sub" = VStr username →
  get_user db username = None →
  get_current_user credentials db = Raise credentials_exception.
Proof.
  intros Hdec Hsub Hget.
  destruct (get_current_user_cases credentials db) as [[user Hok]|]; [|done].
  apply get_current_user_Ok in Hok as (? & ? & Hdec' & Hsub' & _ & Hget').
  congruence.
Qed.

Lemma role_mismatch_rejected credentials db payload username user :
  decode_access_token (HTTPAuthorizationCredentials.credentials credentials)
    = Ok payload →
  dict_get payload "sub" = VStr username →
  get_user db username = Some user →
  dict_get payload "role" ≠ VStr (User.role user) →
  get_current_user credentials db = Raise credentials_exception.
Proof.
  intros Hdec Hsub Hget Hrole.
  destruct (get_current_user_cases credentials db) as [[user' Hok]|]; [|done].
  apply get_current_user_Ok in Hok
    as (payload' & username' & Hdec' & Hsub' & Hrole' & Hget').
  rewrite Hdec in Hdec'. injection Hdec' as <-.
  rewrite Hsub in Hsub'. injection Hsub' as <-.
  rewrite Hget in Hget'. injection Hget' as <-. done.
Qed.

(** C1. A token whose role claim is not the role stored for its subject
    is rejected by [get_current_user] with the 401 authentication
    failure, and so are [GET /user] and [GET /admin]; a token whose role
    claim is the stored role yields the stored record, so the routes
    authorize on the role of the store. *)
Theorem stale_role_rejected credentials db payload username user :
  decode_access_token (HTTPAuthorizationCredentials.credentials credentials)
    = Ok payload →
  dict_get payload "sub" = VStr username →
  get_user db username = Some user →
  (dict_get payload "role" ≠ VStr (User.role user) →
     get_current_user credentials db = Raise credentials_exception
     ∧ status (GET_user credentials db) = 401
     ∧ status (GET_admin credentials db) = 401)
  ∧ (dict_get payload "role" = VStr (User.role user) →
     get_current_user credentials db = Ok user).
Proof.
  intros Hdec Hsub Hget. split.
  - intros Hrole.
    pose proof (role_mismatch_rejected _ _ _ _ _ Hdec Hsub Hget Hrole)
      as Hfail.
    unfold GET_user, GET_admin. by rewrite Hfail.
  - intros Hrole. apply get_current_user_Ok. by exists payload, username.
Qed.

(** The dependency chain of the protected routes. *)
Lemma active_user_Ok credentials db user :
  get_current_user credentials db ≫= get_current_active_user = Ok user ↔
  get_current_user credentials db = Ok user ∧ User.is_active user = true.
Proof.
  destruct (get_current_user credentials db) as [user'|e]; simpl.
  - unfold get_current_active_user.
    destruct (User.is_active user') eqn:Hactive; simpl; split.
    + by intros [= ->].
    + by intros [[= ->] _].
    + discriminate.
    + intros [[= ->] ?]. congruence.
  - split; [discriminate|]. intros [? _]. discriminate.
Qed.

Lemma GET_user_authenticated credentials db user :
  get_current_user credentials db ≫= get_current_active_user = Ok user →
  GET_user credentials db = read_user_route user credentials.
Proof. unfold GET_user. by intros ->. Qed.

Lemma GET_admin_authenticated credentials db user :
  get_current_user credentials db ≫= get_current_active_user = Ok user →
  GET_admin credentials db = read_admin_route user credentials.
Proof. unfold GET_admin. by intros ->. Qed.

Lemma read_user_route_status user credentials :
  status (read_user_route user credentials) = 403 ↔
  User.role user ∉ ["user"; "admin"].
Proof.
  unfold read_user_route. case_bool_decide as Hrole; [done|].
  split; [|done]. intros Hst.
  match type of Hst with
  | status (try_except ?body _) = _ =>
      destruct (try_except_500 body) as [H200|H500]
  end; simpl in *; congruence.
Qed.

Lemma read_admin_route_status user credentials :
  status (read_admin_route user credentials) = 403 ↔
  User.role user ≠ "admin".
Proof.
  unfold read_admin_route. case_bool_decide as Hrole; [done|].
  split; [|done]. intros Hst.
  match type of Hst with
  | status (try_except ?body _) = _ =>
      destruct (try_except_500 body) as [H200|H500]
  end; simpl in *; congruence.
Qed.

(** C2. For an authenticated active user, [GET /admin] answers 403
    exactly when the role is not "admin", and [GET /user] answers 403
    exactly when the role is neither "user" nor "admin"; a user of role
    "user" gets the 403 from [GET /admin] and passes the check of
    [GET /user]. *)
Theorem role_gate credentials db user :
  get_current_user credentials db ≫= get_current_active_user = Ok user →
  (status (GET_admin credentials db) = 403 ↔ User.role user ≠ "admin")
  ∧ (status (GET_user credentials db) = 403 ↔
     ¬ (User.role user = "user" ∨ User.role user = "admin"))
  ∧ (User.role user = "user" →
     GET_admin credentials db
       = Raise (HTTPException 403 "Not enough permissions" [])
     ∧ status (GET_user credentials db) ≠ 403).
Proof.
  intros Hauth.
  rewrite (GET_admin_authenticated _ _ _ Hauth).
  rewrite (GET_user_authenticated _ _ _ Hauth).
  rewrite read_admin_route_status, read_user_route_status.
  split; [done|]. split.
  - rewrite !elem_of_cons, elem_of_nil. tauto.
  - intros Hrole. split.
    + unfold read_admin_route. by rewrite Hrole.
    + intros Hnot. apply Hnot. rewrite Hrole. apply list_elem_of_here.
Qed.

(** C3, as the handlers have it. Each local validation failure ends the
    request with an [HTTPException], whatever the upstream would answer:
    bad login credentials with 401; a token that does not decode, a
    missing subject or role claim, an unknown subject, a role that is not
    the stored one, and every other failure of [get_current_user], with
    the same 401 "Could not validate credentials"; a deactivated user
    with 400 "Inactive user"; an insufficient role with 403. *)
Theorem local_failures_terminal :
  (∀ login_data db,
     authenticate_user db (LoginData.username login_data)
                       (LoginData.password login_data) = None →
     POST_token login_data db
       = Raise (HTTPException 401 "Incorrect username or password"
                              [("WWW-Authenticate", "Bearer")]))
  ∧ (∀ credentials db e,
       decode_access_token
         (HTTPAuthorizationCredentials.credentials credentials) = Raise e →
       get_current_user credentials db = Raise credentials_exception)
  ∧ (∀ credentials db payload,
       decode_access_token
         (HTTPAuthorizationCredentials.credentials credentials)
         = Ok payload →
       dict_get payload "sub" = VNone ∨ dict_get payload "role" = VNone →
       get_current_user credentials db = Raise credentials_exception)
  ∧ (∀ credentials db payload username,
       decode_access_token
         (HTTPAuthorizationCredentials.credentials credentials)
         = Ok payload →
       dict_get payload "sub" = VStr username →
       get_user db username = None →
       get_current_user credentials db = Raise credentials_exception)
  ∧ (∀ credentials db payload username user,
       decode_access_token
         (HTTPAuthorizationCredentials.credentials credentials)
         = Ok payload →
       dict_get payload "sub" = VStr username →
       get_user db username = Some user →
       dict_get payload "role" ≠ VStr (User.role user) →
       get_current_user credentials db = Raise credentials_exception)
  ∧ (∀ credentials db e,
       get_current_user credentials db = Raise e →
       e = credentials_exception
       ∧ GET_user credentials db = Raise credentials_exception
       ∧ GET_admin credentials db = Raise credentials_exception)
  ∧ (∀ credentials db user,
       get_current_user credentials db = Ok user →
       User.is_active user = false →
       GET_user credentials db = Raise (HTTPException 400 "Inactive user" [])
       ∧ GET_admin credentials db
         = Raise (HTTPException 400 "Inactive user" []))
  ∧ (∀ credentials db user,
       get_current_user credentials db = Ok user →
       User.is_active user = true →
       (User.role user ∉ ["user"; "admin"] →
        GET_user credentials db
          = Raise (HTTPException 403 "Not enough permissions" []))
       ∧ (User.role user ≠ "admin" →
          GET_admin credentials db
            = Raise (HTTPException 403 "Not enough permissions" []))).
Proof.
  repeat apply conj.
  - intros login_data db Hnone.
    unfold POST_token, login_for_access_token. by rewrite Hnone.
  - apply decode_failure_rejected.
  - apply missing_claim_rejected.
  - apply unknown_user_rejected.
  - apply role_mismatch_rejected.
  - intros credentials db e Hfail.
    pose proof (get_current_user_Raise _ _ _ Hfail) as ->.
    unfold GET_user, GET_admin. by rewrite Hfail.
  - intros credentials db user Hok Hactive.
    unfold GET_user, GET_admin. rewrite Hok. simpl.
    unfold get_current_active_user. by rewrite Hactive.
  - intros credentials db user Hok Hactive.
    assert (get_current_user credentials db ≫= get_current_active_user
            = Ok user) as Hauth by by apply active_user_Ok.
    rewrite (GET_admin_authenticated _ _ _ Hauth).
    rewrite (GET_user_authenticated _ _ _ Hauth).
    unfold read_user_route, read_admin_route.
    split; intros Hrole; by rewrite bool_decide_true.
Qed.

(** ** POST /token *)

Lemma authenticate_user_None db username password :
  authenticate_user db username password = None ↔
  ¬ ∃ user, get_user db username = Some user
            ∧ verify_password password (User.hashed_password user) = true
            ∧ User.is_active user = true.
Proof.
  unfold authenticate_user.
  destruct (get_user db username) as [user|].
  2: { split; [|done]. intros _ (user & Hget & _). discriminate. }
  destruct (verify_password _ _) eqn:Hpw, (User.is_active user) eqn:Hact;
    simpl.
  - split; [discriminate|]. intros Hno. destruct Hno. by exists user.
  - split; [|done]. intros _ (user' & [= <-] & ? & ?). congruence.
  - split; [|done]. intros _ (user' & [= <-] & ? & ?). congruence.
  - split; [|done]. intros _ (user' & [= <-] & ? & ?). congruence.
Qed.

(** C4. [POST /token] answers 401 when the username and password match
    no active record of the store. When they do, a failure of the
    upstream exchange is answered with 500, be it an unreachable upstream
    or a response whose status is not 200, and no outcome is a 401. *)
Theorem login_failures login_data db :
  let username := LoginData.username login_data in
  let password := LoginData.password login_data in
  let request := {| method := POST;
                    url := Settings.FAKE_API_BASE_URL settings +:+ "/token";
                    params := [("username", username);
                               ("password", password)];
                    headers := [] |} in
  ((¬ ∃ user, get_user db username = Some user
              ∧ verify_password password (User.hashed_password user) = true
              ∧ User.is_active user = true) →
   POST_token login_data db
     = Raise (HTTPException 401 "Incorrect username or password"
                            [("WWW-Authenticate", "Bearer")]))
  ∧ (∀ user,
       authenticate_user db username password = Some user →
       (∀ e, send request = Raise e →
             POST_token login_data db
               = Raise (HTTPException 500 (str e) []))
       ∧ (∀ response,
            send request = Ok response →
            Response.status_code response ≠ 200 →
            status (POST_token login_data db) = 500)
       ∧ status (POST_token login_data db) ≠ 401).
Proof.
  intros username password request. split.
  - intros Hno%authenticate_user_None.
    unfold POST_token, login_for_access_token. fold username password.
    by rewrite Hno.
  - intros user Hsome.
    unfold POST_token, login_for_access_token. fold username password.
    rewrite Hsome. fold request. repeat split.
    + by intros e ->.
    + intros response -> Hcode. simpl. by rewrite bool_decide_true.
    + intros Hst.
      match type of Hst with
      | status (try_except ?body _) = _ =>
          destruct (try_except_500 body) as [H200|H500]
      end; simpl in *; congruence.
Qed.

(** ** GET /user and GET /admin *)

(** C9, as the routes have it. A token that decodes, names a stored user
    with the stored role and has no "ext_token" claim is accepted by
    [get_current_user]. What the routes answer then depends on the stored
    record: a deactivated user gets 400; an active user whose role the
    route does not permit gets 403; an active user with a permitted role
    gets 500, the 401 raised for the missing upstream credential being
    caught by the route's handler and raised again as a 500. No answer is
    a 401. *)
Theorem missing_ext_token_is_500 credentials db payload username user :
  decode_access_token (HTTPAuthorizationCredentials.credentials credentials)
    = Ok payload →
  payload !! "ext_token" = None →
  dict_get payload "sub" = VStr username →
  dict_get payload "role" = VStr (User.role user) →
  get_user db username = Some user →
  get_current_user credentials db = Ok user
  ∧ (User.is_active user = true →
     (User.role user ∈ ["user"; "admin"] →
      GET_user credentials db
        = Raise (HTTPException 500 "401: External token not found" [])
      ∧ status (GET_user credentials db) = 500)
     ∧ (User.role user = "admin" →
        GET_admin credentials db
          = Raise (HTTPException 500 "401: External token not found" [])
        ∧ status (GET_admin credentials db) = 500)
     ∧ (User.role user ∉ ["user"; "admin"] →
        GET_user credentials db
          = Raise (HTTPException 403 "Not enough permissions" []))
     ∧ (User.role user ≠ "admin" →
        GET_admin credentials db
          = Raise (HTTPException 403 "Not enough permissions" [])))
  ∧ (User.is_active user = false →
     GET_user credentials db = Raise (HTTPException 400 "Inactive user" [])
     ∧ GET_admin credentials db
       = Raise (HTTPException 400 "Inactive user" []))
  ∧ status (GET_user credentials db) ≠ 401
  ∧ status (GET_admin credentials db) ≠ 401.
Proof.
  intros Hdec Hext Hsub Hrole Hget.
  assert (get_current_user credentials db = Ok user) as Hok.
  { apply get_current_user_Ok. by exists payload, username. }
  assert (dict_get payload "ext_token" = VNone) as Hnone.
  { unfold dict_get. by rewrite Hext. }
  assert (User.is_active user = true →
          GET_user credentials db = read_user_route user credentials
          ∧ GET_admin credentials db = read_admin_route user credentials)
    as Hroutes.
  { intros Hactive.
    assert (get_current_user credentials db ≫= get_current_active_user
            = Ok user) as Hauth by by apply active_user_Ok.
    by rewrite (GET_user_authenticated _ _ _ Hauth),
               (GET_admin_authenticated _ _ _ Hauth). }
  assert (User.is_active user = false →
          GET_user credentials db
            = Raise (HTTPException 400 "Inactive user" [])
          ∧ GET_admin credentials db
            = Raise (HTTPException 400 "Inactive user" [])) as Hinactive.
  { intros Hactive. unfold GET_user, GET_admin. rewrite Hok. simpl.
    unfold get_current_active_user. by rewrite Hactive. }
  split; [done|]. split; [|split; [done|]].
  - intros Hactive. destruct (Hroutes Hactive) as [-> ->].
    unfold read_user_route, read_admin_route. repeat apply conj.
    + intros Hallowed. rewrite bool_decide_false by by intros [].
      rewrite Hdec. simpl. rewrite Hnone. simpl. split; [|done].
      do 2 f_equal.
    + intros Hadmin. rewrite bool_decide_false by by intros [].
      rewrite Hdec. simpl. rewrite Hnone. simpl. split; [|done].
      do 2 f_equal.
    + intros Hnot. by rewrite bool_decide_true.
    + intros Hnot. by rewrite bool_decide_true.
  - destruct (User.is_active user) eqn:Hactive.
    + destruct (Hroutes eq_refl) as [-> ->]. split.
      * intros Hst. unfold read_user_route in Hst.
        case_bool_decide; [discriminate|].
        match type of Hst with
        | status (try_except ?body _) = _ =>
            destruct (try_except_500 body) as [H200|H500]
        end; simpl in *; congruence.
      * intros Hst. unfold read_admin_route in Hst.
        case_bool_decide; [discriminate|].
        match type of Hst with
        | status (try_except ?body _) = _ =>
            destruct (try_except_500 body) as [H200|H500]
        end; simpl in *; congruence.
    + destruct (Hinactive eq_refl) as [-> ->]. split; discriminate.
Qed.

(** C8, as the routes have it. For an authenticated, authorized request
    whose token carries an upstream credential, [GET /user] and
    [GET /admin] send one GET to the upstream path of the same name, with
    the credential as the Bearer header. When that call raises, or the
    body of the response is not JSON, the answer is 500 with the text of
    the error; otherwise the route returns the JSON body, whatever the
    status of the upstream response. *)
Theorem proxy_forwards credentials db user payload :
  get_current_user credentials db ≫= get_current_active_user = Ok user →
  decode_access_token (HTTPAuthorizationCredentials.credentials credentials)
    = Ok payload →
  truthy (dict_get payload "ext_token") = true →
  let forward path :=
    match send {| method := GET;
                  url := Settings.FAKE_API_BASE_URL settings +:+ path;
                  params := [];
                  headers :=
                    [("Authorization",
                      "Bearer " +:+ format (dict_get payload "ext_token"))]
               |} with
    | Raise e => Raise (HTTPException 500 (str e) [])
    | Ok response =>
        match Response.json response with
        | Raise e => Raise (HTTPException 500 (str e) [])
        | Ok body => Ok body
        end
    end in
  (User.role user ∈ ["user"; "admin"] →
   GET_user credentials db = forward "/user")
  ∧ (User.role user = "admin" → GET_admin credentials db = forward "/admin").
Proof.
  intros Hauth Hdec Hext forward. split.
  - intros Hallowed. rewrite (GET_user_authenticated _ _ _ Hauth).
    unfold read_user_route. rewrite bool_decide_false by by intros [].
    rewrite Hdec. simpl. rewrite Hext. simpl. unfold forward.
    destruct (send _) as [response|e]; simpl; [|done].
    by destruct (Response.json response).
  - intros Hadmin. rewrite (GET_admin_authenticated _ _ _ Hauth).
    unfold read_admin_route. rewrite bool_decide_false by by intros [].
    rewrite Hdec. simpl. rewrite Hext. simpl. unfold forward.
    destruct (send _) as [response|e]; simpl; [|done].
    by destruct (Response.json response).
Qed.
End gate.

(** ** app/core/config.py *)


(** ** The Token Codec *)

Section codec_properties.
Context {signer : Signer} {wire_format : WireFormat}.
Implicit Types (secret : string) (claims : Claims.t) (token : SessionToken).

(** [decode] by cases, for a token whose claims parse. *)
Lemma decode_signed secret now token claims :
  signature_segment token = sign secret (payload_segment token) →
  deserialize (payload_segment token) = Some claims →
  decode secret now token
  = if bool_decide (Claims.expires_at claims ≤ now)
    then Invalid Expired else Valid claims.
Proof.
  intros Hsig Hparse. unfold decode.
  by rewrite bool_decide_true, Hparse.
Qed.

Lemma decode_unsigned secret now token :
  signature_segment token ≠ sign secret (payload_segment token) →
  decode secret now token = Invalid BadSignature.
Proof. intros Hsig. unfold decode. by rewrite bool_decide_false. Qed.

(** An accepted token carries the signature of its payload. *)
Lemma decode_Valid secret now token claims :
  decode secret now token = Valid claims →
  signature_segment token = sign secret (payload_segment token)
  ∧ deserialize (payload_segment token) = Some claims
  ∧ now < Claims.expires_at claims.
Proof.
  unfold decode. case_bool_decide as Hsig; [|done].
  destruct (deserialize _) as [claims'|]; [|done].
  case_bool_decide as Hexp; [done|]. intros [= ->].
  repeat split; [done|lia].
Qed.

Lemma decode_encode {wire_law : WireLaw} secret now t claims ttl :
  decode secret t (encode secret now claims ttl)
  = if bool_decide (now + ttl ≤ t)
    then Invalid Expired else Valid (stamp now ttl claims).
Proof.
  unfold encode.
  erewrite decode_signed; [|done|apply deserialize_serialize]. done.
Qed.

(** C5. Before its expiry, the token that [encode] issues decodes to the
    claims it was issued for, with the timestamps of the issuance: the
    subject, the role and the upstream credential come back unchanged,
    and claims that already carry these timestamps come back as they
    are. *)
Theorem round_trip {wire_law : WireLaw} secret now t claims ttl :
  t < now + ttl →
  ∃ decoded,
    decode secret t (encode secret now claims ttl) = Valid decoded
    ∧ Claims.subject decoded = Claims.subject claims
    ∧ Claims.role decoded = Claims.role claims
    ∧ Claims.upstream_credential decoded
      = Claims.upstream_credential claims
    ∧ Claims.issued_at decoded = now
    ∧ Claims.expires_at decoded = now + ttl
    ∧ (Claims.issued_at claims = now →
       Claims.expires_at claims = now + ttl →
       decoded = claims).
Proof.
  intros Hfresh. exists (stamp now ttl claims).
  rewrite decode_encode, bool_decide_false by lia.
  repeat split. intros Hiat Hexp.
  destruct claims as [subject role credential iat exp]; simpl in *.
  by subst.
Qed.

(** C6. Changing one byte of the signature segment of a token that
    [decode] accepts makes [decode] fail with [BadSignature]. *)
Theorem tamper_detection secret now token claims (i : nat) (b : byte) :
  decode secret now token = Valid claims →
  (i < length (signature_segment token))%nat →
  signature_segment token !! i ≠ Some b →
  decode secret now
         {| payload_segment := payload_segment token;
            signature_segment := <[i := b]> (signature_segment token) |}
  = Invalid BadSignature.
Proof.
  intros (Hsig & _)%decode_Valid Hi Hb.
  apply decode_unsigned. simpl. rewrite <-Hsig. intros Heq.
  apply Hb. rewrite <-Heq. by apply list_lookup_insert_eq.
Qed.

(** C7. A token issued with a lifetime of zero is [Expired] at every
    check from its issuance on; a token issued for [ttl] is [Expired]
    from [now + ttl] on; and every signed token whose claims parse is
    [Expired] once the clock has reached their [expires_at]. *)
Theorem expiry {wire_law : WireLaw} secret now t claims :
  (now ≤ t → decode secret t (encode secret now claims 0) = Invalid Expired)
  ∧ (∀ ttl, now + ttl ≤ t →
       decode secret t (encode secret now claims ttl) = Invalid Expired)
  ∧ (∀ token claims',
       signature_segment token = sign secret (payload_segment token) →
       deserialize (payload_segment token) = Some claims' →
       Claims.expires_at claims' ≤ t →
       decode secret t token = Invalid Expired).
Proof.
  repeat split.
  - intros Hle. by rewrite decode_encode, bool_decide_true by lia.
  - intros ttl Hle. by rewrite decode_encode, bool_decide_true by lia.
  - intros token claims' Hsig Hparse Hle.
    by rewrite (decode_signed _ _ _ _ Hsig Hparse), bool_decide_true.
Qed.

End codec_properties.

(** ** The reference instances obey the laws *)

Lemma unframe_frame field rest :
  Reference.unframe (Reference.frame field ++ rest)%list = Some (field, rest).
Proof.
  induction field as [|b field IH]; simpl; [done|]. by rewrite IH.
Qed.

Lemma unframe_frame_end field :
  Reference.unframe (Reference.frame field) = Some (field, []).
Proof. rewrite <-(app_nil_r (Reference.frame field)). apply unframe_frame. Qed.

Lemma Z_of_bytes_of_Z z : Reference.Z_of_bytes (Reference.bytes_of_Z z) = Some z.
Proof.
  unfold Reference.Z_of_bytes, Reference.bytes_of_Z.
  rewrite String.string_of_list_byte_of_string, NilZero.isi.
  - simpl. by rewrite DecimalZ.of_to.
  - destruct z; simpl; [discriminate| |discriminate].
    intros [= Hnil]. by apply DecimalPos.Unsigned.to_uint_nonnil in Hnil.
  - destruct z; simpl; [discriminate..|].
    intros [= Hnil]. by apply DecimalPos.Unsigned.to_uint_nonnil in Hnil.
Qed.

Lemma wire_roundtrip : @WireLaw Reference.wire.
Proof.
  intros [subject role credential iat exp].
  unfold deserialize, serialize, Reference.wire,
    Reference.deserialize_claims, Reference.serialize_claims. simpl.
  repeat (rewrite unframe_frame; simpl). rewrite unframe_frame_end. simpl.
  rewrite !Z_of_bytes_of_Z. simpl.
  by rewrite !String.string_of_list_byte_of_string.
Qed.


(** ** Signatures of bounded length collide *)





(** ** The theorems at work on the seeded store *)

Section cases.
Import Reference.
Local Existing Instance upstream_up.

(** A token that claims "admin" for the account [user], stored as
    "user". *)
Lemma stale_role_rejected_witness :
  get_current_user (bearer (token_for "user" "admin")) db
    = Raise credentials_exception
  ∧ status (GET_user (bearer (token_for "user" "admin")) db) = 401
  ∧ status (GET_admin (bearer (token_for "user" "admin")) db) = 401.
Proof.
  refine (proj1 (stale_role_rejected
                   (bearer (token_for "user" "admin")) db
                   {[ "sub" := VStr "user"; "role" := VStr "admin";
                      "ext_token" := VStr "ext" ]}
                   "user" user_record _ _ _) _).
  - reflexivity.
  - vm_compute. reflexivity.
  - vm_compute. reflexivity.
  - vm_compute. discriminate.
Defined.

(** The account [user] on both routes. *)
Lemma role_gate_witness :
  GET_admin (bearer (token_for "user" "user")) db
    = Raise (HTTPException 403 "Not enough permissions" [])
  ∧ status (GET_user (bearer (token_for "user" "user")) db) ≠ 403.
Proof.
  refine (proj2 (proj2 (role_gate (bearer (token_for "user" "user")) db
                                  user_record _)) _).
  - vm_compute. reflexivity.
  - reflexivity.
Defined.

(** C3 fails on the code: the account [user], deactivated, presents a
    token that [get_current_user] accepts, and [GET /user] answers 400,
    which is neither 401 nor 403. *)
Lemma inactive_user_gets_400 :
  ∃ user,
    get_current_user (bearer (token_for "user" "user")) db_user_deactivated
      = Ok user
    ∧ User.is_active user = false
    ∧ GET_user (bearer (token_for "user" "user")) db_user_deactivated
      = Raise (HTTPException 400 "Inactive user" [])
    ∧ ¬ (status (GET_user (bearer (token_for "user" "user"))
                          db_user_deactivated) = 401
         ∨ status (GET_user (bearer (token_for "user" "user"))
                            db_user_deactivated) = 403).
Proof.
  exists (deactivate user_record). split; [|split; [|split]].
  - vm_compute. reflexivity.
  - reflexivity.
  - vm_compute. reflexivity.
  - vm_compute. intros [Hst|Hst]; discriminate Hst.
Qed.

Lemma local_failures_terminal_witness :
  GET_user (bearer (token_for "user" "user")) db_user_deactivated
    = Raise (HTTPException 400 "Inactive user" [])
  ∧ GET_admin (bearer (token_for "user" "user")) db_user_deactivated
    = Raise (HTTPException 400 "Inactive user" []).
Proof.
  destruct (local_failures_terminal (Tok := option dict))
    as (_ & _ & _ & _ & _ & _ & Hinactive & _).
  apply (Hinactive _ _ (deactivate user_record)).
  - vm_compute. reflexivity.
  - reflexivity.
Defined.

(** The login of [user] against an upstream that cannot be reached. *)
Lemma login_failures_witness :
  POST_token (Tok := option dict) (httpx := upstream_down) user_login db
  = Raise (HTTPException 500 "All connection attempts failed" []).
Proof.
  refine (proj1 (proj2 (login_failures (httpx := upstream_down)
                                       user_login db) user_record _)
            (Error "All connection attempts failed") _).
  - vm_compute. reflexivity.
  - reflexivity.
Defined.

(** C9 fails on the code: the account [user] presents a token without
    the "ext_token" claim. [get_current_user] accepts it, yet [GET /admin]
    answers 403, and once the account is deactivated [GET /user] answers
    400; neither is a 500. *)
Lemma missing_ext_token_not_always_500 :
  get_current_user (bearer (token_without_ext "user" "user")) db
    = Ok user_record
  ∧ GET_admin (bearer (token_without_ext "user" "user")) db
    = Raise (HTTPException 403 "Not enough permissions" [])
  ∧ status (GET_admin (bearer (token_without_ext "user" "user")) db) ≠ 500
  ∧ get_current_user (bearer (token_without_ext "user" "user"))
                     db_user_deactivated
    = Ok (deactivate user_record)
  ∧ GET_user (bearer (token_without_ext "user" "user")) db_user_deactivated
    = Raise (HTTPException 400 "Inactive user" [])
  ∧ status (GET_user (bearer (token_without_ext "user" "user"))
                     db_user_deactivated) ≠ 500.
Proof.
  split; [|split; [|split; [|split; [|split]]]].
  - vm_compute. reflexivity.
  - vm_compute. reflexivity.
  - vm_compute. discriminate.
  - vm_compute. reflexivity.
  - vm_compute. reflexivity.
  - vm_compute. discriminate.
Qed.

Lemma missing_ext_token_is_500_witness :
  GET_user (bearer (token_without_ext "user" "user")) db
    = Raise (HTTPException 500 "401: External token not found" [])
  ∧ status (GET_user (bearer (token_without_ext "user" "user")) db) = 500.
Proof.
  refine (proj1 (proj1 (proj2 (missing_ext_token_is_500
                                 (bearer (token_without_ext "user" "user"))
                                 db
                                 {[ "sub" := VStr "user";
                                    "role" := VStr "user" ]}
                                 "user" user_record _ _ _ _ _)) _) _).
  - reflexivity.
  - vm_compute. reflexivity.
  - vm_compute. reflexivity.
  - vm_compute. reflexivity.
  - vm_compute. reflexivity.
  - reflexivity.
  - apply list_elem_of_here.
Defined.

(** C8 fails on the code: the upstream answers 503 to every request, and
    [GET /user] returns its body with status 200, not 500. *)
Lemma upstream_503_answered_200 :
  (∀ request, ∃ response,
      send (Httpx := upstream_unavailable) request = Ok response
      ∧ Response.status_code response = 503)
  ∧ GET_user (httpx := upstream_unavailable)
             (bearer (token_for "user" "user")) db
    = Ok (JObject {[ "detail" := VStr "unavailable" ]})
  ∧ status (GET_user (httpx := upstream_unavailable)
                     (bearer (token_for "user" "user")) db) ≠ 500.
Proof.
  split; [|split].
  - intros request. eexists. split; reflexivity.
  - vm_compute. reflexivity.
  - vm_compute. discriminate.
Qed.

Lemma proxy_forwards_witness :
  GET_user (bearer (token_for "user" "user")) db
  = Ok (JObject {[ "access_token" := VStr "ext" ]}).
Proof.
  refine (proj1 (proxy_forwards
                   (bearer (token_for "user" "user")) db user_record
                   {[ "sub" := VStr "user"; "role" := VStr "user";
                      "ext_token" := VStr "ext" ]} _ _ _) _).
  - vm_compute. reflexivity.
  - reflexivity.
  - vm_compute. reflexivity.
  - apply list_elem_of_here.
Defined.

(** The codec on the claims of [user], issued at 1000 for a minute. *)
Lemma round_trip_witness :
  ∃ decoded,
    decode "k" 1059 (encode "k" 1000 user_claims 60) = Valid decoded
    ∧ Claims.subject decoded = "user"
    ∧ Claims.role decoded = "user"
    ∧ Claims.upstream_credential decoded = "ext"
    ∧ Claims.issued_at decoded = 1000
    ∧ Claims.expires_at decoded = 1060.
Proof.
  destruct (round_trip (wire_law := wire_roundtrip)
                       "k" 1000 1059 user_claims 60)
    as (decoded & Hdec & Hsub & Hrole & Hcred & Hiat & Hexp & _); [lia|].
  exists decoded. repeat split; assumption.
Defined.

Lemma tamper_detection_witness :
  decode "k" 1030
         {| payload_segment :=
              payload_segment (encode "k" 1000 user_claims 60);
            signature_segment :=
              <[0%nat := Byte.x00]>
                (signature_segment (encode "k" 1000 user_claims 60)) |}
  = Invalid BadSignature.
Proof.
  apply (tamper_detection "k" 1030 (encode "k" 1000 user_claims 60)
                          (stamp 1000 60 user_claims) 0 Byte.x00).
  - vm_compute. reflexivity.
  - vm_compute. lia.
  - vm_compute. discriminate.
Defined.

Lemma expiry_witness :
  decode "k" 1000 (encode "k" 1000 user_claims 0) = Invalid Expired.
Proof.
  apply (proj1 (expiry (wire_law := wire_roundtrip)
                       "k" 1000 1000 user_claims)). lia.
Defined.

End cases.

(** * Further properties of the handlers *)

(** ** The Credential Store, as [main.py] relies on it *)

Lemma get_user_Some db username user :
  get_user db username = Some user →
  User.username user = username ∧ user ∈ db.
Proof.
  unfold get_user. intros [Hin Hname]%List.find_some.
  split; [by apply bool_decide_eq_true in Hname|by apply list_elem_of_In].
Qed.

Lemma authenticate_user_Some {hasher : Hasher} db username password user :
  authenticate_user db username password = Some user ↔
  get_user db username = Some user
  ∧ verify_password password (User.hashed_password user) = true
  ∧ User.is_active user = true.
Proof.
  unfold authenticate_user.
  destruct (get_user db username) as [user'|].
  2: { split; [discriminate|]. intros [? _]. discriminate. }
  destruct (verify_password password (User.hashed_password user')) eqn:Hpw,
           (User.is_active user') eqn:Hact; simpl.
  - split; [by intros [= <-]|by intros [[= <-] _]].
  - split; [discriminate|]. intros [[= <-] [? ?]]. congruence.
  - split; [discriminate|]. intros [[= <-] [? ?]]. congruence.
  - split; [discriminate|]. intros [[= <-] [? ?]]. congruence.
Qed.

(** ** POST /token *)

Section login.
Context {Tok : Type} {security : Security Tok} {hasher : Hasher}
        {httpx : Httpx} {config : Config}.
Implicit Types (login_data : LoginData.t) (db : DB) (user : User.t).

(** [timedelta(minutes=m)] exists exactly when it spans at most 999999999
    days. *)
Lemma timedelta_minutes_Ok (m lifetime : Z) :
  timedelta_minutes m = Ok lifetime ↔
  lifetime = 60 * m ∧ Z.abs ((60 * m) `div` 86400) ≤ 999999999.
Proof.
  unfold timedelta_minutes. case_bool_decide as Hdays.
  - split; [by intros [= <-]|by intros [-> _]].
  - split; [by case_bool_decide|]. intros [_ ?]. done.
Qed.

(** The handler, with its request named. *)
Lemma login_unfold login_data db :
  POST_token login_data db =
  match authenticate_user db (LoginData.username login_data)
                          (LoginData.password login_data) with
  | None =>
      Raise (HTTPException 401 "Incorrect username or password"
                           [("WWW-Authenticate", "Bearer")])
  | Some user =>
      try_except
        (response ← send (token_request login_data);
         if bool_decide (Response.status_code response ≠ 200)
         then Raise (HTTPException (Response.status_code response)
                       (pretty (Response.status_code response) +:+ ": "
                        +:+ Response.text response) [])
         else
           body ← Response.json response;
           external_token ← getitem body "access_token";
           access_token_expires ←
             timedelta_minutes
               (Settings.ACCESS_TOKEN_EXPIRE_MINUTES settings);
           access_token ←
             create_access_token
               {[ "sub" := VStr (User.username user);
                  "role" := VStr (User.role user);
                  "ext_token" := external_token ]}
               access_token_expires;
           Ok {| Token.access_token := access_token;
                 Token.token_type := "bearer";
                 Token.role := User.role user |})
        (λ e, Raise (HTTPException 500 (str e) []))
  end.
Proof. reflexivity. Qed.

(** What a successful login went through. *)
Lemma login_issued login_data db result :
  POST_token login_data db = Ok result →
  ∃ user response fields external_token access_token,
    authenticate_user db (LoginData.username login_data)
                      (LoginData.password login_data) = Some user
    ∧ send (token_request login_data) = Ok response
    ∧ Response.status_code response = 200
    ∧ Response.json response = Ok (JObject fields)
    ∧ fields !! "access_token" = Some external_token
    ∧ Z.abs ((60 * Settings.ACCESS_TOKEN_EXPIRE_MINUTES settings)
             `div` 86400) ≤ 999999999
    ∧ create_access_token
        {[ "sub" := VStr (User.username user);
           "role" := VStr (User.role user);
           "ext_token" := external_token ]}
        (60 * Settings.ACCESS_TOKEN_EXPIRE_MINUTES settings)
      = Ok access_token
    ∧ result = {| Token.access_token := access_token;
                  Token.token_type := "bearer";
                  Token.role := User.role user |}.
Proof.
  rewrite login_unfold.
  destruct (authenticate_user _ _ _) as [user|]; [|done].
  destruct (send _) as [response|e] eqn:Hsend; simpl; [|done].
  case_bool_decide as Hcode; simpl; [done|].
  destruct (Response.json response)
    as [[[|b|n|text]|items|fields]|e] eqn:Hjson; simpl; try done.
  destruct (fields !! "access_token") as [external_token|] eqn:Hkey;
    simpl; [|done].
  destruct (timedelta_minutes _) as [lifetime|e] eqn:Hdelta; simpl; [|done].
  apply timedelta_minutes_Ok in Hdelta as [-> Hdays].
  destruct (create_access_token _ _) as [access_token|e] eqn:Hsign;
    simpl; [|done].
  intros [= <-].
  exists user, response, fields, external_token, access_token.
  by repeat split.
Qed.

(** X1. [POST /token] returns a token exactly when the local check
    accepts the credentials, the upstream answers 200 with a JSON object
    that has an "access_token", the configured lifetime fits a
    [timedelta], and the codec signs the claims; the claims signed are the
    stored username and role and the upstream's token, for
    [ACCESS_TOKEN_EXPIRE_MINUTES] minutes, and the body reports the stored
    role with the token type "bearer". *)
Theorem POST_token_Ok login_data db result :
  POST_token login_data db = Ok result ↔
  ∃ user response fields external_token access_token,
    authenticate_user db (LoginData.username login_data)
                      (LoginData.password login_data) = Some user
    ∧ send (token_request login_data) = Ok response
    ∧ Response.status_code response = 200
    ∧ Response.json response = Ok (JObject fields)
    ∧ fields !! "access_token" = Some external_token
    ∧ Z.abs ((60 * Settings.ACCESS_TOKEN_EXPIRE_MINUTES settings)
             `div` 86400) ≤ 999999999
    ∧ create_access_token
        {[ "sub" := VStr (User.username user);
           "role" := VStr (User.role user);
           "ext_token" := external_token ]}
        (60 * Settings.ACCESS_TOKEN_EXPIRE_MINUTES settings)
      = Ok access_token
    ∧ result = {| Token.access_token := access_token;
                  Token.token_type := "bearer";
                  Token.role := User.role user |}.
Proof.
  split; [apply login_issued|].
  intros (user & response & fields & external_token & access_token
          & Hauth & Hsend & Hcode & Hjson & Hkey & Hdays & Hsign & ->).
  rewrite login_unfold, Hauth, Hsend. simpl.
  rewrite bool_decide_false by (by intros []).
  rewrite Hjson. simpl. rewrite Hkey. simpl.
  rewrite (proj2 (timedelta_minutes_Ok _ _) (conj eq_refl Hdays)). simpl.
  by rewrite Hsign.
Qed.

(** The configured lifetime of a token that was issued does not
    overflow: [POST /token] answers 500 when it does, before the codec is
    called. *)
Lemma login_timedelta_overflow login_data db user response fields
    external_token :
  authenticate_user db (LoginData.username login_data)
                    (LoginData.password login_data) = Some user →
  send (token_request login_data) = Ok response →
  Response.status_code response = 200 →
  Response.json response = Ok (JObject fields) →
  fields !! "access_token" = Some external_token →
  999999999 < Z.abs ((60 * Settings.ACCESS_TOKEN_EXPIRE_MINUTES settings)
                     `div` 86400) →
  status (POST_token login_data db) = 500.
Proof.
  intros Hauth Hsend Hcode Hjson Hkey Hdays.
  rewrite login_unfold, Hauth, Hsend. simpl.
  rewrite bool_decide_false by (by intros []).
  rewrite Hjson. simpl. rewrite Hkey. simpl.
  unfold timedelta_minutes. rewrite bool_decide_false by lia.
  by case_bool_decide.
Qed.

(** X2. [POST /token] answers 200, 401 or 500 and nothing else, whatever
    status the upstream answers with; it answers 401 exactly when the
    local check refuses the credentials. *)
Theorem POST_token_status login_data db :
  (status (POST_token login_data db) = 200
   ∨ status (POST_token login_data db) = 401
   ∨ status (POST_token login_data db) = 500)
  ∧ (status (POST_token login_data db) = 401 ↔
     authenticate_user db (LoginData.username login_data)
                       (LoginData.password login_data) = None).
Proof.
  rewrite login_unfold.
  destruct (authenticate_user _ _ _) as [user|].
  - match goal with
    | |- context [try_except ?body _] =>
        destruct (try_except_500 body) as [Hst|Hst]
    end; simpl in Hst; rewrite Hst; split; auto; split; discriminate.
  - simpl. split; [auto|done].
Qed.

(** X3. When the upstream answers the exchange with a status other than
    200, [POST /token] answers 500 and its detail carries the upstream's
    status, twice, and the text of the upstream's body. *)
Theorem login_upstream_rejected login_data db user response :
  authenticate_user db (LoginData.username login_data)
                    (LoginData.password login_data) = Some user →
  send (token_request login_data) = Ok response →
  Response.status_code response ≠ 200 →
  POST_token login_data db
  = Raise (HTTPException 500
             (pretty (Response.status_code response) +:+ ": "
              +:+ pretty (Response.status_code response) +:+ ": "
              +:+ Response.text response) []).
Proof.
  intros Hauth Hsend Hcode. rewrite login_unfold, Hauth, Hsend. simpl.
  by rewrite bool_decide_true.
Qed.

(** X4. When the upstream answers 200 but its body is not JSON, or is a
    JSON object without the key "access_token", no token is issued:
    [POST /token] answers 500, with the text of the parse error or with
    the quoted name of the missing key. *)
Theorem login_without_access_token login_data db user response :
  authenticate_user db (LoginData.username login_data)
                    (LoginData.password login_data) = Some user →
  send (token_request login_data) = Ok response →
  Response.status_code response = 200 →
  (∀ e, Response.json response = Raise e →
        POST_token login_data db = Raise (HTTPException 500 (str e) []))
  ∧ (∀ fields,
       Response.json response = Ok (JObject fields) →
       fields !! "access_token" = None →
       POST_token login_data db
       = Raise (HTTPException 500 "'access_token'" [])).
Proof.
  intros Hauth Hsend Hcode. rewrite login_unfold, Hauth, Hsend. simpl.
  rewrite bool_decide_false by (by intros []). split.
  - by intros e ->.
  - intros fields -> Hkey. simpl. by rewrite Hkey.
Qed.
End login.

(** ** GET /user, GET /admin and GET /health *)

Section routes.
Context {Tok : Type} {security : Security Tok} {hasher : Hasher}
        {httpx : Httpx} {config : Config}.
Implicit Types (credentials : HTTPAuthorizationCredentials.t Tok)
               (db : DB) (user : User.t) (payload : dict).

Lemma read_user_route_unfold user credentials :
  read_user_route user credentials =
  if bool_decide (User.role user ∉ ["user"; "admin"])
  then Raise (HTTPException 403 "Not enough permissions" [])
  else proxied credentials "/user".
Proof.
  unfold read_user_route, proxied. case_bool_decide; [done|].
  destruct (decode_access_token _) as [payload|e]; simpl; [|done].
  destruct (truthy _); simpl; [|done].
  unfold proxy_request. destruct (send _) as [response|e]; simpl; [|done].
  by destruct (Response.json response).
Qed.

Lemma read_admin_route_unfold user credentials :
  read_admin_route user credentials =
  if bool_decide (User.role user ≠ "admin")
  then Raise (HTTPException 403 "Not enough permissions" [])
  else proxied credentials "/admin".
Proof.
  unfold read_admin_route, proxied. case_bool_decide; [done|].
  destruct (decode_access_token _) as [payload|e]; simpl; [|done].
  destruct (truthy _); simpl; [|done].
  unfold proxy_request. destruct (send _) as [response|e]; simpl; [|done].
  by destruct (Response.json response).
Qed.

Lemma proxied_Ok credentials path body :
  proxied credentials path = Ok body ↔
  ∃ payload response,
    decode_access_token (HTTPAuthorizationCredentials.credentials credentials)
      = Ok payload
    ∧ truthy (dict_get payload "ext_token") = true
    ∧ send (proxy_request path (dict_get payload "ext_token")) = Ok response
    ∧ Response.json response = Ok body.
Proof.
  unfold proxied, relayed. split.
  - destruct (decode_access_token _) as [payload|e]; [|done].
    destruct (truthy _) eqn:Hext; [|done].
    destruct (send _) as [response|e] eqn:Hsend; [|done].
    destruct (Response.json response) as [body'|e] eqn:Hjson; [|done].
    intros [= <-]. by exists payload, response.
  - intros (payload & response & -> & -> & -> & ->). done.
Qed.

Lemma proxied_status credentials path :
  status (proxied credentials path) = 200
  ∨ status (proxied credentials path) = 500.
Proof.
  unfold proxied, relayed.
  destruct (decode_access_token _) as [payload|e]; [|by right].
  destruct (truthy _); [|by right].
  destruct (send _) as [response|e]; [|by right].
  destruct (Response.json response); [by left|by right].
Qed.

(** X5. [GET /user] returns a body exactly when the token decodes, its
    subject is a stored user whose stored role is the role claim, that
    user is active with role "user" or "admin", the token carries a
    non-empty upstream credential, and the upstream answers the forwarded
    request with a JSON body, which is the body returned. *)
Theorem GET_user_Ok credentials db body :
  GET_user credentials db = Ok body ↔
  ∃ payload username user response,
    decode_access_token (HTTPAuthorizationCredentials.credentials credentials)
      = Ok payload
    ∧ dict_get payload "sub" = VStr username
    ∧ dict_get payload "role" = VStr (User.role user)
    ∧ get_user db username = Some user
    ∧ User.is_active user = true
    ∧ User.role user ∈ ["user"; "admin"]
    ∧ truthy (dict_get payload "ext_token") = true
    ∧ send (proxy_request "/user" (dict_get payload "ext_token"))
      = Ok response
    ∧ Response.json response = Ok body.
Proof.
  split.
  - unfold GET_user.
    destruct (get_current_user credentials db ≫= get_current_active_user)
      as [user|e] eqn:Hauth; [|done].
    simpl. rewrite read_user_route_unfold.
    case_bool_decide as Hrole; [done|].
    intros (payload & response & Hdec & Hext & Hsend & Hjson)%proxied_Ok.
    apply active_user_Ok in Hauth as [Hok Hactive].
    apply get_current_user_Ok in Hok
      as (payload' & username & Hdec' & Hsub & Hclaim & Hget).
    rewrite Hdec in Hdec'. injection Hdec' as <-.
    exists payload, username, user, response.
    by repeat split.
  - intros (payload & username & user & response & Hdec & Hsub & Hclaim
            & Hget & Hactive & Hrole & Hext & Hsend & Hjson).
    assert (get_current_user credentials db ≫= get_current_active_user
            = Ok user) as Hauth.
    { apply active_user_Ok. split; [|done].
      apply get_current_user_Ok. by exists payload, username. }
    rewrite (GET_user_authenticated _ _ _ Hauth), read_user_route_unfold.
    rewrite bool_decide_false by (by intros []).
    apply proxied_Ok. by exists payload, response.
Qed.

(** X6. [GET /admin] returns a body exactly under the conditions of
    [GET /user] with the stored role "admin" and the upstream path
    "/admin". *)
Theorem GET_admin_Ok credentials db body :
  GET_admin credentials db = Ok body ↔
  ∃ payload username user response,
    decode_access_token (HTTPAuthorizationCredentials.credentials credentials)
      = Ok payload
    ∧ dict_get payload "sub" = VStr username
    ∧ dict_get payload "role" = VStr "admin"
    ∧ get_user db username = Some user
    ∧ User.is_active user = true
    ∧ User.role user = "admin"
    ∧ truthy (dict_get payload "ext_token") = true
    ∧ send (proxy_request "/admin" (dict_get payload "ext_token"))
      = Ok response
    ∧ Response.json response = Ok body.
Proof.
  split.
  - unfold GET_admin.
    destruct (get_current_user credentials db ≫= get_current_active_user)
      as [user|e] eqn:Hauth; [|done].
    simpl. rewrite read_admin_route_unfold.
    case_bool_decide as Hrole; [done|].
    intros (payload & response & Hdec & Hext & Hsend & Hjson)%proxied_Ok.
    apply active_user_Ok in Hauth as [Hok Hactive].
    apply get_current_user_Ok in Hok
      as (payload' & username & Hdec' & Hsub & Hclaim & Hget).
    rewrite Hdec in Hdec'. injection Hdec' as <-.
    rewrite Hrole in Hclaim.
    exists payload, username, user, response. by repeat split.
  - intros (payload & username & user & response & Hdec & Hsub & Hclaim
            & Hget & Hactive & Hrole & Hext & Hsend & Hjson).
    assert (get_current_user credentials db ≫= get_current_active_user
            = Ok user) as Hauth.
    { apply active_user_Ok. split; [|done].
      apply get_current_user_Ok. exists payload, username.
      by rewrite Hrole. }
    rewrite (GET_admin_authenticated _ _ _ Hauth), read_admin_route_unfold.
    rewrite bool_decide_false by (by intros []).
    apply proxied_Ok. by exists payload, response.
Qed.

(** X7. A token whose upstream credential is present but falsy (the
    empty string, 0, False, None) is treated like one without the claim:
    for an authenticated active user with a permitted role both routes
    answer 500 with the detail of the inner 401, and the upstream's answer
    plays no part. *)
Theorem falsy_ext_token_is_500 credentials db user payload :
  get_current_user credentials db ≫= get_current_active_user = Ok user →
  decode_access_token (HTTPAuthorizationCredentials.credentials credentials)
    = Ok payload →
  truthy (dict_get payload "ext_token") = false →
  (User.role user ∈ ["user"; "admin"] →
   GET_user credentials db
   = Raise (HTTPException 500 "401: External token not found" []))
  ∧ (User.role user = "admin" →
     GET_admin credentials db
     = Raise (HTTPException 500 "401: External token not found" [])).
Proof.
  intros Hauth Hdec Hext. split; intros Hrole.
  - rewrite (GET_user_authenticated _ _ _ Hauth), read_user_route_unfold.
    rewrite bool_decide_false by (by intros []).
    unfold proxied. by rewrite Hdec, Hext.
  - rewrite (GET_admin_authenticated _ _ _ Hauth), read_admin_route_unfold.
    rewrite bool_decide_false by (by intros []).
    unfold proxied. by rewrite Hdec, Hext.
Qed.

(** The status of a chain of dependencies followed by a role check. *)
Lemma status_table credentials db (route : User.t → Result Json)
    (permitted : User.t → Prop) `{!∀ user, Decision (permitted user)} path :
  (∀ user, route user =
           if bool_decide (permitted user)
           then proxied credentials path
           else Raise (HTTPException 403 "Not enough permissions" [])) →
  let answer :=
    (get_current_user credentials db ≫= get_current_active_user) ≫= route in
  (status answer = 401 ↔
   get_current_user credentials db = Raise credentials_exception)
  ∧ (status answer = 400 ↔
     ∃ user, get_current_user credentials db = Ok user
             ∧ User.is_active user = false)
  ∧ (status answer = 403 ↔
     ∃ user, get_current_user credentials db = Ok user
             ∧ User.is_active user = true ∧ ¬ permitted user)
  ∧ (status answer = 200 ∨ status answer = 500 ↔
     ∃ user, get_current_user credentials db = Ok user
             ∧ User.is_active user = true ∧ permitted user).
Proof.
  intros Hroute answer. unfold answer.
  destruct (get_current_user_cases credentials db) as [[user Hok]|Hfail].
  - rewrite Hok. simpl. unfold get_current_active_user.
    destruct (User.is_active user) eqn:Hactive; simpl.
    + rewrite Hroute. case_bool_decide as Hperm; simpl.
      * destruct (proxied_status credentials path) as [Hst|Hst]; rewrite Hst.
        all: split; [split; discriminate|].
        all: split; [split; [discriminate|]|].
        all: try (intros (user' & [= <-] & ?); congruence).
        all: split; [split; [discriminate|]|].
        all: try (intros (user' & [= <-] & ? & ?); done).
        all: split; [intros _; by exists user|auto].
      * split; [split; discriminate|].
        split; [split; [discriminate|]|].
        { intros (user' & [= <-] & ?); congruence. }
        split; [split; [intros _; by exists user|done]|].
        split; [intros [?|?]; discriminate|].
        intros (user' & [= <-] & ? & ?); done.
    + split; [split; discriminate|].
      split; [split; [intros _; by exists user|done]|].
      split; [split; [discriminate|]|].
      { intros (user' & [= <-] & ? & ?); congruence. }
      split; [intros [?|?]; discriminate|].
      intros (user' & [= <-] & ? & ?); congruence.
  - rewrite Hfail. simpl.
    split; [done|].
    split; [split; [discriminate|intros (? & ? & ?); discriminate]|].
    split; [split; [discriminate|intros (? & ? & ?); discriminate]|].
    split; [intros [?|?]; discriminate|intros (? & ? & ?); discriminate].
Qed.

(** X8. The checks of a protected route come in a fixed order. The
    answer is 401 exactly when [get_current_user] refuses the token, 400
    exactly when it accepts the token of a deactivated user, whatever the
    role, and 403 exactly when the user is active and the role is not
    permitted; every other answer is 200 or 500. *)
Theorem protected_status_table credentials db :
  let table (answer : Result Json) (permitted : User.t → Prop) :=
    (status answer = 401 ↔
     get_current_user credentials db = Raise credentials_exception)
    ∧ (status answer = 400 ↔
       ∃ user, get_current_user credentials db = Ok user
               ∧ User.is_active user = false)
    ∧ (status answer = 403 ↔
       ∃ user, get_current_user credentials db = Ok user
               ∧ User.is_active user = true ∧ ¬ permitted user)
    ∧ (status answer = 200 ∨ status answer = 500 ↔
       ∃ user, get_current_user credentials db = Ok user
               ∧ User.is_active user = true ∧ permitted user) in
  table (GET_user credentials db) (λ user, User.role user ∈ ["user"; "admin"])
  ∧ table (GET_admin credentials db) (λ user, User.role user = "admin").
Proof.
  intros table. split.
  - apply (status_table credentials db
             (λ user, read_user_route user credentials)
             (λ user, User.role user ∈ ["user"; "admin"]) "/user").
    intros user. rewrite read_user_route_unfold.
    do 2 case_bool_decide; done.
  - apply (status_table credentials db
             (λ user, read_admin_route user credentials)
             (λ user, User.role user = "admin") "/admin").
    intros user. rewrite read_admin_route_unfold.
    do 2 case_bool_decide; done.
Qed.

(** X9. [GET /health] asks for no credentials and relays the upstream's
    "/health": it returns the JSON body of whatever response comes back,
    and answers 500 exactly when the call raises or the body is not
    JSON. *)
Theorem health_check_relays :
  health_check = relayed (send health_request)
  ∧ (∀ body, health_check = Ok body ↔
       ∃ response, send health_request = Ok response
                   ∧ Response.json response = Ok body)
  ∧ (status health_check = 500 ↔
     (∃ e, send health_request = Raise e)
     ∨ (∃ response e, send health_request = Ok response
                      ∧ Response.json response = Raise e)).
Proof.
  assert (health_check = relayed (send health_request)) as Hrelay.
  { unfold health_check, relayed, health_request.
    destruct (send _) as [response|e]; simpl; [|done].
    by destruct (Response.json response). }
  split; [done|]. rewrite Hrelay. unfold relayed.
  destruct (send health_request) as [response|e]; simpl.
  - destruct (Response.json response) as [body'|e] eqn:Hjson; simpl.
    + split.
      * intros body. split.
        -- intros [= <-]. by exists response.
        -- intros (response' & [= <-] & Hjson'). congruence.
      * split; [discriminate|].
        intros [(e & ?)|(response' & e & [= <-] & ?)]; congruence.
    + split.
      * intros body. split; [discriminate|].
        intros (response' & [= <-] & Hjson'). congruence.
      * split; [|done]. intros _. right. by exists response, e.
  - split.
    + intros body. split; [discriminate|]. intros (? & ? & _). discriminate.
    + split; [|done]. intros _. left. by exists e.
Qed.
End routes.

(** ** From login to the protected routes *)

Section session.
Context {Tok : Type} {security : Security Tok} {hasher : Hasher}
        {httpx : Httpx} {config : Config}.
Implicit Types (login_data : LoginData.t) (db : DB) (user : User.t).

(** The token of a successful login, presented against the same store. *)
Lemma login_token_accepted login_data db result scheme :
  POST_token login_data db = Ok result →
  fresh (Token.access_token result) →
  ∃ user response fields external_token payload,
    authenticate_user db (LoginData.username login_data)
                      (LoginData.password login_data) = Some user
    ∧ send (token_request login_data) = Ok response
    ∧ Response.json response = Ok (JObject fields)
    ∧ fields !! "access_token" = Some external_token
    ∧ Token.role result = User.role user
    ∧ decode_access_token (Token.access_token result) = Ok payload
    ∧ dict_get payload "ext_token" = external_token
    ∧ get_current_user
        {| HTTPAuthorizationCredentials.scheme := scheme;
           HTTPAuthorizationCredentials.credentials
             := Token.access_token result |} db
      ≫= get_current_active_user = Ok user.
Proof.
  intros (user & response & fields & external_token & access_token
          & Hauth & Hsend & _ & Hjson & Hkey & _ & Hsign & ->)%login_issued
         Hfresh.
  destruct (Hfresh _ _ Hsign) as (payload & Hdec & Hsub).
  assert (∀ key v,
            ({[ "sub" := VStr (User.username user);
                "role" := VStr (User.role user);
                "ext_token" := external_token ]} : dict) !! key = Some v →
            dict_get payload key = v) as Hkept.
  { intros key v Hlookup. unfold dict_get.
    by rewrite (lookup_weaken _ _ _ _ Hlookup Hsub). }
  pose proof (proj1 (authenticate_user_Some _ _ _ _) Hauth)
    as (Hget & _ & Hactive).
  destruct (get_user_Some _ _ _ Hget) as [Hname _].
  exists user, response, fields, external_token, payload. simpl.
  repeat split; try done.
  - by apply Hkept.
  - apply active_user_Ok. split; [|done].
    apply get_current_user_Ok. exists payload, (User.username user). simpl.
    repeat split; try done.
    + by apply Hkept.
    + by apply Hkept.
    + by rewrite Hname.
Qed.

(** X10. The token that [POST /token] returned, presented while it is
    fresh against the same store, is accepted on the protected routes:
    [get_current_user] and [get_current_active_user] return the very
    record that logged in, and the role reported by the login is the role
    the routes will check. *)
Theorem login_then_authenticate login_data db result scheme :
  POST_token login_data db = Ok result →
  fresh (Token.access_token result) →
  ∃ user,
    authenticate_user db (LoginData.username login_data)
                      (LoginData.password login_data) = Some user
    ∧ get_current_user
        {| HTTPAuthorizationCredentials.scheme := scheme;
           HTTPAuthorizationCredentials.credentials
             := Token.access_token result |} db
      ≫= get_current_active_user = Ok user
    ∧ Token.role result = User.role user.
Proof.
  intros Hlogin Hfresh.
  destruct (login_token_accepted _ _ _ scheme Hlogin Hfresh)
    as (user & response & fields & external_token & payload & Hauth & _
        & _ & _ & Hrole & _ & _ & Hok).
  by exists user.
Qed.

End session.

(** ** A store that changes after the login *)

Section staleness.
Context {Tok : Type} {security : Security Tok} {hasher : Hasher}
        {httpx : Httpx} {config : Config}.
Implicit Types (login_data : LoginData.t) (db : DB) (user : User.t).

(** The claims in the token of a successful login. *)
Lemma login_token_claims login_data db result :
  POST_token login_data db = Ok result →
  fresh (Token.access_token result) →
  ∃ payload,
    decode_access_token (Token.access_token result) = Ok payload
    ∧ dict_get payload "sub" = VStr (LoginData.username login_data)
    ∧ dict_get payload "role" = VStr (Token.role result).
Proof.
  intros (user & response & fields & external_token & access_token
          & Hauth & _ & _ & _ & _ & _ & Hsign & ->)%login_issued Hfresh.
  destruct (Hfresh _ _ Hsign) as (payload & Hdec & Hsub).
  pose proof (proj1 (authenticate_user_Some _ _ _ _) Hauth) as (Hget & _).
  destruct (get_user_Some _ _ _ Hget) as [Hname _].
  assert (∀ key v,
            ({[ "sub" := VStr (User.username user);
                "role" := VStr (User.role user);
                "ext_token" := external_token ]} : dict) !! key = Some v →
            dict_get payload key = v) as Hkept.
  { intros key v Hlookup. unfold dict_get.
    by rewrite (lookup_weaken _ _ _ _ Hlookup Hsub). }
  exists payload. simpl. split; [done|]. split.
  - rewrite <-Hname. by apply Hkept.
  - by apply Hkept.
Qed.

(** X12. The token of a successful login, presented while it is fresh,
    is checked against the store of the later request, not the store of
    the login. Once the account is gone from the store, or is stored with
    another role than the login reported, both protected routes answer
    401; once it is deactivated with the role unchanged, they answer
    400. *)
Theorem login_then_store_changes login_data db result scheme db' :
  POST_token login_data db = Ok result →
  fresh (Token.access_token result) →
  let credentials :=
    {| HTTPAuthorizationCredentials.scheme := scheme;
       HTTPAuthorizationCredentials.credentials
         := Token.access_token result |} in
  (get_user db' (LoginData.username login_data) = None →
   status (GET_user credentials db') = 401
   ∧ status (GET_admin credentials db') = 401)
  ∧ (∀ user', get_user db' (LoginData.username login_data) = Some user' →
       User.role user' ≠ Token.role result →
       status (GET_user credentials db') = 401
       ∧ status (GET_admin credentials db') = 401)
  ∧ (∀ user', get_user db' (LoginData.username login_data) = Some user' →
       User.role user' = Token.role result →
       User.is_active user' = false →
       status (GET_user credentials db') = 400
       ∧ status (GET_admin credentials db') = 400).
Proof.
  intros Hlogin Hfresh credentials.
  destruct (login_token_claims _ _ _ Hlogin Hfresh)
    as (payload & Hdec & Hsub & Hrole).
  split; [|split].
  - intros Hgone.
    assert (get_current_user credentials db' = Raise credentials_exception)
      as Hfail by by eapply unknown_user_rejected.
    unfold GET_user, GET_admin. by rewrite Hfail.
  - intros user' Hget Hchanged.
    assert (get_current_user credentials db' = Raise credentials_exception)
      as Hfail.
    { eapply role_mismatch_rejected; [done..|].
      rewrite Hrole. intros [= Heq]. by apply Hchanged. }
    unfold GET_user, GET_admin. by rewrite Hfail.
  - intros user' Hget Hsame Hinactive.
    assert (get_current_user credentials db' = Ok user') as Hok.
    { apply get_current_user_Ok.
      exists payload, (LoginData.username login_data).
      repeat split; try done. by rewrite Hsame. }
    unfold GET_user, GET_admin. rewrite Hok. simpl.
    unfold get_current_active_user. by rewrite Hinactive.
Qed.
End staleness.

(** ** app/core/config.py and app/db/init_db.py *)


(** X14. [init_db] leaves a store that already has a user as it is, so
    running it again changes nothing. *)
Theorem init_db_idempotent {hasher : Hasher} (db : DB) :
  (db ≠ [] → init_db db = db)
  ∧ init_db (init_db db) = init_db db.
Proof.
  destruct db as [|user db]; [|done]. split; [done|]. reflexivity.
Qed.

(** X15. On an empty store [init_db] provisions every entry of
    [INITIAL_USERS]: the store then holds, under the entry's username, an
    active record with the entry's role and the hash of its password, and
    with a hasher that verifies its own hashes the entry's credentials
    pass the local check of the login. *)
Theorem init_db_seeds {hasher : Hasher} username password role :
  (username, password, role) ∈ INITIAL_USERS →
  let record := {| User.username := username;
                   User.hashed_password := get_password_hash password;
                   User.role := role;
                   User.is_active := true |} in
  get_user (init_db []) username = Some record
  ∧ (verify_password password (get_password_hash password) = true →
     authenticate_user (init_db []) username password = Some record).
Proof.
  intros Hin record.
  assert (get_user (init_db []) username = Some record) as Hget.
  { unfold INITIAL_USERS in Hin.
    rewrite !elem_of_cons, elem_of_nil in Hin.
    destruct Hin as [[= -> -> ->]|[[= -> -> ->]|[]]]; reflexivity. }
  split; [done|]. intros Hverify.
  apply authenticate_user_Some. by repeat split.
Qed.


(** ** These properties at work on the seeded store *)

Section signed_tokens.
Import Reference.

(** A signed token is fresh until it expires. *)
Lemma signed_token_fresh secret issued now data lifetime token :
  create_access_token (Security := Fixtures.signed_tokens secret issued now)
                      data lifetime = Ok token →
  now < issued + lifetime →
  fresh (security := Fixtures.signed_tokens secret issued now) token.
Proof.
  assert (∀ data lifetime token,
            create_access_token
              (Security := Fixtures.signed_tokens secret issued now)
              data lifetime = Ok token →
            ∃ claims,
              token = encode secret issued claims lifetime
              ∧ data ⊆ Fixtures.payload_of (stamp issued lifetime claims))
    as Hcreated.
  { clear. intros data lifetime token. simpl.
    destruct (data !! "sub") as [[| | |subject]|]; try done.
    destruct (data !! "role") as [[| | |role]|]; try done.
    destruct (data !! "ext_token") as [[| | |credential]|]; try done.
    case_bool_decide as Hdata; [|done]. intros [= <-].
    eexists. split; [reflexivity|]. rewrite Hdata.
    unfold Fixtures.payload_of. simpl.
    do 2 apply insert_mono. rewrite <-insert_empty.
    apply insert_mono, map_empty_subseteq. }
  intros (claims & -> & _)%Hcreated Hlive data' lifetime'
         (claims' & Hsame & Hsub)%Hcreated.
  assert (stamp issued lifetime' claims' = stamp issued lifetime claims)
    as Hstamp.
  { apply (f_equal payload_segment) in Hsame. unfold encode in Hsame.
    simpl in Hsame.
    apply (f_equal Reference.deserialize_claims) in Hsame.
    pose proof (wire_roundtrip (stamp issued lifetime claims)) as Hparse.
    pose proof (wire_roundtrip (stamp issued lifetime' claims')) as Hparse'.
    cbv [deserialize serialize wire] in Hparse, Hparse'. congruence. }
  exists (Fixtures.payload_of (stamp issued lifetime claims)).
  split; [|by rewrite <-Hstamp].
  change (decode_access_token
            (Security := Fixtures.signed_tokens secret issued now) ?token)
    with (match decode secret now token with
          | Valid claims => Ok (Fixtures.payload_of claims)
          | Invalid Expired => Raise (JWTError "Signature has expired.")
          | Invalid BadSignature =>
              Raise (JWTError "Signature verification failed.")
          | Invalid Malformed => Raise (JWTError "Not enough segments")
          end).
  rewrite (decode_encode (wire_law := wire_roundtrip)).
  by rewrite bool_decide_false by (simpl; lia).
Qed.

(** The session of [user] is what the gateway answers its login with,
    and its token is fresh half a minute later. *)
Lemma user_session_issued :
  POST_token (security := Fixtures.gateway_tokens)
             (hasher := Reference.hasher) (httpx := Reference.upstream_up)
             (config := Reference.config) Reference.user_login Reference.db
  = Ok Fixtures.user_session.
Proof. vm_compute. reflexivity. Qed.

Lemma user_session_fresh :
  fresh (security := Fixtures.gateway_tokens)
        (Token.access_token Fixtures.user_session).
Proof.
  apply (signed_token_fresh "secret" 1000 1030
           {[ "sub" := VStr "user"; "role" := VStr "user";
              "ext_token" := VStr "ext" ]} 1800).
  - vm_compute. reflexivity.
  - lia.
Qed.
End signed_tokens.

Section more_cases.
Import Reference Fixtures.
Local Existing Instance upstream_up.

(** The login of [user] against an upstream that answers 503. *)
Lemma login_upstream_rejected_witness :
  POST_token (Tok := option dict) (httpx := upstream_unavailable)
             user_login db
  = Raise (HTTPException 500 "503: 503: {detail: unavailable}" []).
Proof.
  apply (login_upstream_rejected (httpx := upstream_unavailable)
           user_login db user_record
           {| Response.status_code := 503;
              Response.text := "{detail: unavailable}";
              Response.json :=
                Ok (JObject {[ "detail" := VStr "unavailable" ]}) |}).
  - vm_compute. reflexivity.
  - reflexivity.
  - discriminate.
Defined.

(** The login of [user] against an upstream whose 200 has no token. *)
Lemma login_without_access_token_witness :
  POST_token (Tok := option dict) (httpx := upstream_without_token)
             user_login db
  = Raise (HTTPException 500 "'access_token'" []).
Proof.
  refine (proj2 (login_without_access_token
                   (httpx := upstream_without_token)
                   user_login db user_record
                   {| Response.status_code := 200;
                      Response.text := "{detail: ok}";
                      Response.json :=
                        Ok (JObject {[ "detail" := VStr "ok" ]}) |} _ _ _)
            {[ "detail" := VStr "ok" ]} _ _).
  - vm_compute. reflexivity.
  - reflexivity.
  - reflexivity.
  - reflexivity.
  - vm_compute. reflexivity.
Defined.

(** A token of [user] whose upstream credential is the empty string. *)
Lemma falsy_ext_token_is_500_witness :
  GET_user (bearer (token_with_empty_ext "user" "user")) db
  = Raise (HTTPException 500 "401: External token not found" []).
Proof.
  refine (proj1 (falsy_ext_token_is_500
                   (bearer (token_with_empty_ext "user" "user")) db
                   user_record
                   {[ "sub" := VStr "user"; "role" := VStr "user";
                      "ext_token" := VStr EmptyString ]} _ _ _) _).
  - vm_compute. reflexivity.
  - reflexivity.
  - vm_compute. reflexivity.
  - apply list_elem_of_here.
Defined.

(** The login of [user], then its token on the protected routes half a
    minute later. *)
Lemma login_then_authenticate_witness :
  ∃ user,
    authenticate_user db "user" "L0XuwPOdS5U" = Some user
    ∧ get_current_user (security := gateway_tokens)
        (bearer (Token.access_token user_session)) db
      ≫= get_current_active_user = Ok user
    ∧ "user" = User.role user.
Proof.
  refine (login_then_authenticate (security := gateway_tokens)
            user_login db user_session "Bearer" _ _).
  - apply user_session_issued.
  - apply user_session_fresh.
Defined.



Lemma init_db_idempotent_witness : init_db db = db.
Proof.
  apply (proj1 (init_db_idempotent db)). discriminate.
Defined.

Lemma init_db_seeds_witness :
  authenticate_user (init_db []) "admin" "JKSipm0YH"
  = Some {| User.username := "admin";
            User.hashed_password := "hash:JKSipm0YH";
            User.role := "admin";
            User.is_active := true |}.
Proof.
  refine (proj2 (init_db_seeds "admin" "JKSipm0YH" "admin" _) _).
  - apply list_elem_of_further, list_elem_of_here.
  - vm_compute. reflexivity.
Defined.
(** The account [user] logs in, and is deactivated before its token is
    presented. *)
Lemma login_then_store_changes_witness :
  status (GET_user (security := gateway_tokens)
                   (bearer (Token.access_token user_session))
                   db_user_deactivated) = 400
  ∧ status (GET_admin (security := gateway_tokens)
                      (bearer (Token.access_token user_session))
                      db_user_deactivated) = 400.
Proof.
  refine (proj2 (proj2 (login_then_store_changes
                          (security := gateway_tokens)
                          user_login db user_session
                          "Bearer" db_user_deactivated _ _))
            (deactivate user_record) _ _ _).
  - apply user_session_issued.
  - apply user_session_fresh.
  - vm_compute. reflexivity.
  - reflexivity.
  - reflexivity.
Defined.
End more_cases.
